(** * FICTranscribe: the transcription service of [transcribe_api1.py]

    A shallow embedding of the request handlers [transcribe],
    [download_text], [download_vtt] and of the helper [format_timestamp],
    with the properties of the caption timestamp encoding, the artifact
    layout and the error paths.

    Conventions of the embedding.
    - A Python [str] is a [string]; file contents are strings too.
    - A finite Python [float] is modelled by the rational number it
      denotes ([Q]), and is one of the rationals that [Py.is_binary64]
      accepts.  The float operations that [format_timestamp] uses
      ([//], [%], [int]) follow CPython's [_float_div_mod], [float_rem]
      and truncation, with every arithmetic result rounded to the nearest
      binary64 value.  Infinities and NaN are not values of the model:
      the times of a segment are finite.
    - A Python [int] is a [Z].
    - The file system, the log and the clock form an explicit world that
      the handlers thread through; a Python exception is a value of [exn]
      returned on the left of a sum. *)

From Stdlib Require Import ZArith QArith Qround Qabs Lia Lqa.
From Stdlib Require Import Ascii String.
From stdpp Require Import gmap strings.

Local Open Scope Z_scope.

(** ** Strings *)

Module Str.

(** [c * n] for a one-character string [c]. *)
Fixpoint replicate (n : nat) (c : ascii) : string :=
  match n with
  | O => EmptyString
  | S n' => String c (replicate n' c)
  end.

(** [str.zfill]-like left padding with the character [0], the fill that
    the format specifications [02] and [03] ask for. *)
Definition zero_fill (width : nat) (s : string) : string :=
  replicate (width - String.length s) "0"%char +:+ s.

(** [s.endswith(t)] *)
Fixpoint ends_with (s t : string) : bool :=
  if String.eqb s t then true
  else match s with
       | EmptyString => false
       | String _ s' => ends_with s' t
       end.

(** [s.startswith(t)] *)
Definition starts_with (s t : string) : bool := String.prefix t s.

(** [s.rfind(c)] for a one-character [c]: the highest index of [c] in
    [s], or [-1]. *)
Fixpoint rfind (s : string) (c : ascii) : Z :=
  match s with
  | EmptyString => -1
  | String a s' =>
      let r := rfind s' c in
      if 0 <=? r then r + 1 else if Ascii.eqb a c then 0 else -1
  end.

(** [c in s] for a one-character [c]. *)
Fixpoint has_char (c : ascii) (s : string) : bool :=
  match s with
  | EmptyString => false
  | String a s' => Ascii.eqb a c || has_char c s'
  end.

(** The slices [s[i:j]] and [s[i:]] for indices within range. *)
Definition slice (s : string) (i j : nat) : string := String.substring i (j - i) s.
Definition slice_from (s : string) (i : nat) : string :=
  String.substring i (String.length s - i) s.

(** The line feed that the source writes as a backslash followed by n. *)
Definition nl : string := String (ascii_of_nat 10) EmptyString.

End Str.

(** ** Python numbers *)

Module Py.

(** *** Decimal rendering of an [int] *)

Definition digit_char (d : Z) : ascii := ascii_of_nat (48 + Z.to_nat d).

(** The digits of [n], most significant first, pushed in front of
    [acc]; [fuel] bounds the number of digits. *)
Fixpoint digits_aux (fuel : nat) (n : Z) (acc : string) : string :=
  match fuel with
  | O => acc
  | S fuel' =>
      let acc' := String (digit_char (n mod 10)) acc in
      if n <? 10 then acc' else digits_aux fuel' (n / 10) acc'
  end.

(** [str(n)] for [0 <= n]. *)
Definition str_of_nonneg (n : Z) : string :=
  digits_aux (S (Z.to_nat (Z.log2 n))) n "".

(** [format(n, "0<width>")] as in the replacement fields [{hours:02}]
    and [{milliseconds:03}]: the sign first, then zeros up to the
    width, then the digits.  The width is a minimum. *)
Definition format_int_zero (width : nat) (n : Z) : string :=
  if n <? 0
  then "-" +:+ Str.zero_fill (width - 1) (str_of_nonneg (- n))
  else Str.zero_fill width (str_of_nonneg n).

(** The value of a string of decimal digits, read left to right. *)
Definition digit_value (c : ascii) : Z := Z.of_nat (nat_of_ascii c) - 48.

Fixpoint decimal_value_from (acc : Z) (s : string) : Z :=
  match s with
  | EmptyString => acc
  | String c s' => decimal_value_from (10 * acc + digit_value c) s'
  end.

Definition decimal_value (s : string) : Z := decimal_value_from 0 s.

(** *** Binary64 floats *)

Local Open Scope Q_scope.

(** [2 ^ e] *)
Definition pow2 (e : Z) : Q :=
  if (0 <=? e)%Z then inject_Z (2 ^ e) else 1 # Z.to_pos (2 ^ (- e)).

(** [floor(log2 a)] for [0 < a]. *)
Definition ilog2 (a : Q) : Z :=
  if Qle_bool 1 a then Z.log2 (Qfloor a) else (- Z.log2_up (Qceiling (/ a)))%Z.

(** The integer nearest to [q]; of two that are equally near, the even
    one. *)
Definition round_half_even (q : Q) : Z :=
  let f := Qfloor q in
  match Qcompare (q - inject_Z f) (1 # 2) with
  | Lt => f
  | Gt => (f + 1)%Z
  | Eq => if Z.even f then f else (f + 1)%Z
  end.

(** The binary64 value nearest to [q], ties to even: a mantissa of 53
    bits, times a power of two not below [2 ^ -1074].  Overflow to an
    infinity is not modelled: no operation of [format_timestamp] leaves
    the range of its finite operands. *)
Definition round64 (q : Q) : Q :=
  if Qeq_bool q 0 then 0
  else
    let a := Qabs q in
    let e := Z.max (-1074) (ilog2 a - 52) in
    let m := round_half_even (a * pow2 (- e)) in
    let r := inject_Z m * pow2 e in
    if Qle_bool 0 q then r else - r.

Definition max_binary64 : Q := inject_Z ((2 ^ 53 - 1) * 2 ^ 971).

(** The rationals that are finite binary64 values: those that rounding
    leaves as they are, up to the largest one. *)
Definition is_binary64 (q : Q) : bool :=
  Qeq_bool (round64 q) q && Qle_bool (Qabs q) max_binary64.

(** The float operators [+], [-] and [/] of C: the exact result,
    rounded. *)
Definition fadd (a b : Q) : Q := round64 (a + b).
Definition fsub (a b : Q) : Q := round64 (a - b).
Definition fdiv (a b : Q) : Q := round64 (a / b).

(** C's [floor] and truncation toward zero, with an integral result. *)
Definition floor (x : Q) : Z := Qfloor x.
Definition trunc (x : Q) : Z := Z.quot (Qnum x) (Zpos (Qden x)).

Definition is_zero (x : Q) : bool := Qeq_bool x 0.
Definition is_neg (x : Q) : bool := negb (Qle_bool 0 x).

(** C's [fmod]: [vx - n * wx] with [n] the quotient truncated toward
    zero, so the result has the sign of [vx].  The result is exact: the
    remainder of two binary64 values is a binary64 value. *)
Definition fmod (vx wx : Q) : Q := vx - inject_Z (trunc (vx / wx)) * wx.

(** [float_rem] of CPython, the operator [%] on floats, for [wx <> 0]:
    the remainder takes the sign of the divisor. *)
Definition float_rem (vx wx : Q) : Q :=
  let mod_ := fmod vx wx in
  if negb (is_zero mod_)
  then if xorb (is_neg wx) (is_neg mod_) then fadd mod_ wx else mod_
  else 0.

(** [_float_div_mod] of CPython, whose quotient is the operator [//]
    on floats, for [wx <> 0]. *)
Definition float_div_mod (vx wx : Q) : Q * Q :=
  let mod_ := fmod vx wx in
  let div := fdiv (fsub vx mod_) wx in
  let '(mod_, div) :=
    if negb (is_zero mod_)
    then if xorb (is_neg wx) (is_neg mod_)
         then (fadd mod_ wx, fsub div 1)
         else (mod_, div)
    else (0, div) in
  let floordiv :=
    if negb (is_zero div)
    then let f := inject_Z (floor div) in
         if negb (Qle_bool (fsub div f) (1 # 2)) then fadd f 1 else f
    else 0 in
  (floordiv, mod_).

Definition float_floor_div (vx wx : Q) : Q := fst (float_div_mod vx wx).

(** [int(x)] for a float [x]: truncation toward zero. *)
Definition int_of_float (x : Q) : Z := trunc x.

(** [int(n)] for an int [n]. *)
Definition int_of_int (n : Z) : Z := n.

End Py.

(** ** [format_timestamp] *)

Section FormatTimestamp.

(** The four numbers that [format_timestamp] computes, in the order of
    the source.  The third line rebinds [seconds] to an [int]; the
    fourth line reads that [int]. *)
Definition timestamp_fields (seconds : Q) : Z * Z * Z * Z :=
  let hours := Py.int_of_float (Py.float_floor_div seconds 3600) in
  let minutes :=
    Py.int_of_float (Py.float_floor_div (Py.float_rem seconds 3600) 60) in
  let seconds := Py.int_of_float (Py.float_rem seconds 60) in
  let milliseconds := Py.int_of_int ((seconds mod 1) * 1000)%Z in
  (hours, minutes, seconds, milliseconds).

Definition format_timestamp (seconds : Q) : string :=
  let '(hours, minutes, seconds, milliseconds) := timestamp_fields seconds in
  Py.format_int_zero 2 hours +:+ ":" +:+ Py.format_int_zero 2 minutes +:+ ":"
    +:+ Py.format_int_zero 2 seconds +:+ "." +:+ Py.format_int_zero 3 milliseconds.

End FormatTimestamp.


(** ** [os.path] on POSIX *)

Module OsPath.

(** One step of [posixpath.join]: an absolute component replaces what
    came before it. *)
Definition join2 (path b : string) : string :=
  if Str.starts_with b "/" then b
  else if String.eqb path "" || Str.ends_with path "/" then path +:+ b
  else path +:+ "/" +:+ b.

(** [os.path.join(a, *p)] *)
Definition join (a : string) (p : list string) : string := fold_left join2 p a.

(** The loop of [genericpath._splitext] that skips the leading dots of
    the last component; [count] is the number of iterations left. *)
Fixpoint splitext_scan (count : nat) (p : string) (filenameIndex dotIndex : nat)
  : string * string :=
  match count with
  | O => (p, "")
  | S count' =>
      if negb (String.eqb (Str.slice p filenameIndex (filenameIndex + 1)) ".")
      then (Str.slice p 0 dotIndex, Str.slice_from p dotIndex)
      else splitext_scan count' p (S filenameIndex) dotIndex
  end.

(** [os.path.splitext(p)] *)
Definition splitext (p : string) : string * string :=
  let sepIndex := Str.rfind p "/" in
  let dotIndex := Str.rfind p "." in
  if sepIndex <? dotIndex
  then let filenameIndex := sepIndex + 1 in
       splitext_scan (Z.to_nat (dotIndex - filenameIndex)) p
         (Z.to_nat filenameIndex) (Z.to_nat dotIndex)
  else (p, "").

End OsPath.

(** ** [datetime] *)

Record datetime := {
  year : Z; month : Z; day : Z;
  hour : Z; minute : Z; second : Z; microsecond : Z
}.

(** The invariant of a [datetime] object (the calendar's month lengths
    are not needed here). *)
Definition datetime_valid (t : datetime) : Prop :=
  1 <= year t <= 9999 /\ 1 <= month t <= 12 /\ 1 <= day t <= 31 /\
  0 <= hour t <= 23 /\ 0 <= minute t <= 59 /\ 0 <= second t <= 59 /\
  0 <= microsecond t <= 999999.

(** One directive of [strftime]; the directives are those of the format
    that the service uses, any other one is left as it is.  The year is
    printed as the C library on Linux prints it, with no padding: four
    digits from the year 1000 on. *)
Definition strftime_directive (t : datetime) (c : ascii) : string :=
  if Ascii.eqb c "Y" then Py.str_of_nonneg (year t)
  else if Ascii.eqb c "m" then Py.format_int_zero 2 (month t)
  else if Ascii.eqb c "d" then Py.format_int_zero 2 (day t)
  else if Ascii.eqb c "H" then Py.format_int_zero 2 (hour t)
  else if Ascii.eqb c "M" then Py.format_int_zero 2 (minute t)
  else if Ascii.eqb c "S" then Py.format_int_zero 2 (second t)
  else String "%" (String c "").

(** [t.strftime(fmt)] *)
Fixpoint strftime (t : datetime) (fmt : string) : string :=
  match fmt with
  | EmptyString => ""
  | String "%" (String c fmt') => strftime_directive t c +:+ strftime t fmt'
  | String a fmt' => String a (strftime t fmt')
  end.

(** ** The world of the handlers *)

(** The exceptions that the handlers can meet; each one is an instance of
    [Exception], with the text that [str(e)] gives. *)
Inductive exn :=
| FileNotFoundError (msg : string)
| IsADirectoryError (msg : string)
| OSError (msg : string)
| RuntimeError (msg : string).

Definition exn_str (e : exn) : string :=
  match e with
  | FileNotFoundError msg | IsADirectoryError msg | OSError msg | RuntimeError msg => msg
  end.

Inductive log_level := INFO | ERROR.

(** The directories and the regular files on disk (a path to its
    content), and the records of [logger], oldest first. *)
Record World := {
  dirs : gset string;
  files : gmap string string;
  log : list (log_level * string)
}.

(** The calls that reach the operating system. *)
Inductive io_op :=
| MakeDirs (path : string)
| OpenW (path : string)
| Write (path : string) (data : string)
| Close (path : string).

(** What the environment makes of one call: whether it raises; for a
    write or a close that raises, how many characters of what the file
    was to hold are on disk afterwards (writes are buffered, so this may
    be less than what earlier writes handed over); for a [makedirs], which
    directories other than the one asked for (its missing parents) the
    call made on its way, whether it then returns or raises. *)
Record outcome := {
  raised : option exn;
  on_disk : nat;
  made : gset string
}.

Definition fine : outcome := {| raised := None; on_disk := 0; made := ∅ |}.

Definition fails (e : exn) : outcome := {| raised := Some e; on_disk := 0; made := ∅ |}.

(** A computation of the handler: it reads and changes the world, and
    returns a value or raises. *)
Definition M (A : Type) : Type := World -> (exn + A) * World.

Definition ret {A : Type} (a : A) : M A := fun w => (inr a, w).

Definition raise {A : Type} (e : exn) : M A := fun w => (inl e, w).

Definition bind {A B : Type} (m : M A) (k : A -> M B) : M B :=
  fun w =>
    match m w with
    | (inl e, w') => (inl e, w')
    | (inr a, w') => k a w'
    end.

Declare Scope prog_scope.
Delimit Scope prog_scope with prog.
Notation "x <- m ;; k" := (bind m (fun x => k))
  (at level 100, m at next level, right associativity) : prog_scope.
Notation "m ;; k" := (bind m (fun _ => k))
  (at level 100, right associativity) : prog_scope.

Definition logger_info (msg : string) : M unit :=
  fun w => (inr tt, {| dirs := dirs w; files := files w; log := log w ++ [(INFO, msg)] |}).

Definition logger_error (msg : string) : M unit :=
  fun w => (inr tt, {| dirs := dirs w; files := files w; log := log w ++ [(ERROR, msg)] |}).

(** A world [w'] keeps what [w] had when no directory and no file of [w]
    is missing from it; a computation is preserving when every run of it
    ends in such a world, whether it returns or raises. *)
Definition extends (w w' : World) : Prop :=
  dirs w ⊆ dirs w' /\ dom (files w) ⊆ dom (files w').

Definition preserving {A : Type} (m : M A) : Prop :=
  forall w r w', m w = (r, w') -> extends w w'.

(** ** The request and the response *)

(** An uploaded file of the multipart form. *)
Record FileStorage := { filename : string; stream : string }.

(** The parts of [request] that the handler reads: [request.headers],
    keyed by header name, and [request.files], keyed by form field. *)
Record Request := {
  headers : gmap string string;
  form_files : gmap string FileStorage
}.

(** What a view returns: a JSON object made by [jsonify], or a file sent
    as an attachment by [send_file]. *)
Inductive Body :=
| Json (obj : gmap string string)
| Attachment (path : string) (content : string).

Definition Response : Type := Body * Z.

Definition jsonify (obj : gmap string string) : Body := Json obj.

(** ** The recognition engine's result *)

Record Segment := { seg_start : Q; seg_end : Q; seg_text : string }.

Record TranscriptionResult := { text : string; segments : list Segment }.

(** ** The handlers *)

Section Service.

Local Open Scope prog_scope.

(** The constants of the module [constants]. *)
Variable HARDCODED_TOKEN : string.
Variable STATIC_FOLDER : string.

(** [model.transcribe]: the engine reads the saved audio and returns
    its result or raises. *)
Variable model_transcribe : string -> World -> exn + TranscriptionResult.

(** The environment decides whether a call to the operating system
    fails (a missing parent, a full disk, permissions), and what it
    leaves behind when it does. *)
Variable io_fault : io_op -> World -> outcome.

(** A call that either has its effect or raises and changes nothing. *)
Definition attempt (op : io_op) (effect : World -> World) : M unit :=
  fun w =>
    match raised (io_fault op w) with
    | Some e => raise e w
    | None => (inr tt, effect w)
    end.

(** [os.makedirs(path, exist_ok=True)]: the missing parents are made
    first, then the directory itself; a call that raises may have made
    some of them, a call that returns leaves [path] a directory. *)
Definition os_makedirs (path : string) : M unit :=
  fun w =>
    let o := io_fault (MakeDirs path) w in
    match raised o with
    | Some e =>
        (inl e, {| dirs := made o ∪ dirs w; files := files w; log := log w |})
    | None =>
        (inr tt, {| dirs := {[path]} ∪ (made o ∪ dirs w); files := files w;
                    log := log w |})
    end.

(** [open(path, "w")]: the file is created or emptied; the handle is
    the path. *)
Definition open_w (path : string) : M string :=
  attempt (OpenW path)
    (fun w => {| dirs := dirs w; files := <[path := ""]> (files w); log := log w |}) ;;
  ret path.

(** [f.write(data)] on a handle from [open_w]: the data goes to the end
    of the file.  While the file is open the world holds what it is to
    hold; a write that raises leaves on disk the first characters of that,
    as many as the environment says, and the handler writes no more to
    it. *)
Definition file_write (f : string) (data : string) : M unit :=
  fun w =>
    let content := default "" (files w !! f) +:+ data in
    let o := io_fault (Write f data) w in
    match raised o with
    | Some e =>
        (inl e, {| dirs := dirs w;
                   files := <[f := Str.slice content 0 (on_disk o)]> (files w);
                   log := log w |})
    | None =>
        (inr tt, {| dirs := dirs w; files := <[f := content]> (files w);
                    log := log w |})
    end.

(** [f.close()] at the end of a [with] block that did not raise: what
    is still buffered goes to disk, or the close raises and leaves the
    first characters of the content. *)
Definition file_close (f : string) : M unit :=
  fun w =>
    let content := default "" (files w !! f) in
    let o := io_fault (Close f) w in
    match raised o with
    | Some e =>
        (inl e, {| dirs := dirs w;
                   files := <[f := Str.slice content 0 (on_disk o)]> (files w);
                   log := log w |})
    | None => (inr tt, w)
    end.

(** [audio_file.save(path)] of [FileStorage]: the target is opened for
    writing, the stream is copied into it, and it is closed. *)
Definition save (audio_file : FileStorage) (path : string) : M unit :=
  dst <- open_w path ;;
  file_write dst (stream audio_file) ;;
  file_close dst.

Definition engine (file_path : string) : M TranscriptionResult :=
  fun w =>
    match model_transcribe file_path w with
    | inl e => raise e w
    | inr result => ret result w
    end.

(** The names that [transcribe] derives from the upload and the clock. *)
Definition folder_name (audio_filename : string) (now : datetime) : string :=
  let timestamp := strftime now "%Y%m%d_%H%M%S" in
  fst (OsPath.splitext audio_filename) +:+ "_" +:+ timestamp.

Definition text_filename (audio_filename : string) : string :=
  fst (OsPath.splitext audio_filename) +:+ "_transcribed.txt".

Definition vtt_filename (audio_filename : string) : string :=
  fst (OsPath.splitext audio_filename) +:+ ".vtt".

(** The loop over [result["segments"]] inside [with open(vtt_file_path, "w")]. *)
Fixpoint write_cues (vtt_file : string) (segs : list Segment) : M unit :=
  match segs with
  | [] => ret tt
  | segment :: rest =>
      let start := seg_start segment in
      let end_ := seg_end segment in
      let text := seg_text segment in
      let start_time := format_timestamp start in
      let end_time := format_timestamp end_ in
      file_write vtt_file
        (start_time +:+ " --> " +:+ end_time +:+ Str.nl +:+ text +:+ Str.nl +:+ Str.nl) ;;
      write_cues vtt_file rest
  end.

(** The body of the [try] block of [transcribe]; [now] is the reading
    of [datetime.now()]. *)
Definition transcribe_try (request : Request) (now : datetime) : M Response :=
  let provided_token := headers request !! "Authorization" in
  if bool_decide (provided_token ≠ Some HARDCODED_TOKEN)
  then ret (jsonify {[ "error" := "Invalid token" ]}, 401)
  else
    match form_files request !! "audio_file" with
    | None => ret (jsonify {[ "error" := "No audio file provided" ]}, 400)
    | Some audio_file =>
        let folder_path :=
          OsPath.join STATIC_FOLDER [folder_name (filename audio_file) now] in
        os_makedirs folder_path ;;
        let file_path := OsPath.join folder_path [filename audio_file] in
        save audio_file file_path ;;
        logger_info ("Transcribing audio file: " +:+ file_path) ;;
        result <- engine file_path ;;
        let transcribed_text := text result in
        let text_file_path :=
          OsPath.join folder_path [text_filename (filename audio_file)] in
        (text_file <- open_w text_file_path ;;
         file_write text_file transcribed_text ;;
         file_close text_file) ;;
        let vtt_file_path :=
          OsPath.join folder_path [vtt_filename (filename audio_file)] in
        (vtt_file <- open_w vtt_file_path ;;
         file_write vtt_file ("WEBVTT" +:+ Str.nl +:+ Str.nl) ;;
         write_cues vtt_file (segments result) ;;
         file_close vtt_file) ;;
        logger_info ("Transcription completed for file: " +:+ file_path) ;;
        ret (jsonify {[ "transcribed_text" := transcribed_text;
                        "text_file_path" := text_file_path;
                        "vtt_file_path" := vtt_file_path ]}, 200)
    end.

(** [transcribe]: the [try] block and its [except Exception] clause. *)
Definition transcribe (request : Request) (now : datetime) (w : World)
  : Response * World :=
  match transcribe_try request now w with
  | (inr response, w') => (response, w')
  | (inl e, w') =>
      let '(_, w'') :=
        logger_error ("Error during transcription: " +:+ exn_str e) w' in
      ((jsonify {[ "error" := "Internal server error" ]}, 500), w'')
  end.

(** [app.root_path], the directory of the application's module. *)
Variable ROOT_PATH : string.

(** [send_file(path, as_attachment=True)] of the framework.  A relative
    path is taken from [app.root_path], not from the working directory
    that [open] and [os.makedirs] start from.  The path is looked at
    first, which raises [FileNotFoundError] when nothing is there, and
    then opened for reading, which raises [IsADirectoryError] on a
    directory. *)
Definition send_file (path : string) : M Response :=
  fun w =>
    let resolved := OsPath.join ROOT_PATH [path] in
    match files w !! resolved with
    | Some content => ret (Attachment resolved content, 200) w
    | None =>
        if bool_decide (resolved ∈ dirs w)
        then raise (IsADirectoryError resolved) w
        else raise (FileNotFoundError resolved) w
    end.

(** A [try] block with the clause [except FileNotFoundError]; any other
    exception goes on to the caller. *)
Definition try_except_FileNotFoundError {A : Type}
    (body : M A) (handler : M A) : M A :=
  fun w =>
    match body w with
    | (inl (FileNotFoundError _), w') => handler w'
    | r => r
    end.

Definition download_text (folder_name filename : string) : M Response :=
  let text_file_path := OsPath.join STATIC_FOLDER [folder_name; filename] in
  try_except_FileNotFoundError
    (send_file text_file_path)
    (logger_error ("Text file not found: " +:+ text_file_path) ;;
     ret (jsonify {[ "error" := "File not found" ]}, 404)).

Definition download_vtt (folder_name filename : string) : M Response :=
  let vtt_file_path := OsPath.join STATIC_FOLDER [folder_name; filename] in
  try_except_FileNotFoundError
    (send_file vtt_file_path)
    (logger_error ("VTT file not found: " +:+ vtt_file_path) ;;
     ret (jsonify {[ "error" := "File not found" ]}, 404)).

(** The top level of the module, run once when the application starts:
    the model is loaded (the loader returns or raises), then the storage
    root is made if it is not there. *)
Variable MODEL_NAME : string.
Variable load_model : string -> World -> option exn.

Definition whisper_load_model (name : string) : M unit :=
  fun w =>
    match load_model name w with
    | Some e => raise e w
    | None => ret tt w
    end.

Definition startup : M unit :=
  logger_info "Loading model..." ;;
  whisper_load_model MODEL_NAME ;;
  logger_info "Model loaded successfully." ;;
  os_makedirs STATIC_FOLDER.

End Service.

(** ** The contracts as the specification words them *)

Module Spec.

Local Open Scope Q_scope.

(** [x mod y] on non-negative reals. *)
Definition Qmod (x y : Q) : Q := x - y * inject_Z (Qfloor (x / y)).

(** The decomposition of section 4.1. *)
Definition hours (seconds : Q) : Z := Qfloor (seconds / 3600).
Definition minutes (seconds : Q) : Z := Qfloor (Qmod seconds 3600 / 60).
Definition secs (seconds : Q) : Z := Qfloor (Qmod seconds 60).
Definition fractional_part (seconds : Q) : Q := seconds - inject_Z (Qfloor seconds).
Definition millis (seconds : Q) : Z := Qfloor (fractional_part seconds * 1000).

Definition is_digit (c : ascii) : Prop := (48 <= nat_of_ascii c <= 57)%nat.

Fixpoint all_digits (s : string) : Prop :=
  match s with
  | EmptyString => True
  | String c s' => is_digit c /\ all_digits s'
  end.

(** [s] is the decimal numeral of [n] padded with zeros to at least
    [width] characters: nothing but digits, of value [n], and no zero in
    front once the width is exceeded. *)
Definition zero_padded (width : nat) (n : Z) (s : string) : Prop :=
  all_digits s /\ Py.decimal_value s = n /\
  (width <= String.length s)%nat /\
  ((width < String.length s)%nat -> String.get 0 s <> Some "0"%char).

(** One cue block of section 4.2, and the caption document. *)
Definition cue_block (segment : Segment) : string :=
  format_timestamp (seg_start segment) +:+ " --> "
    +:+ format_timestamp (seg_end segment) +:+ Str.nl
    +:+ seg_text segment +:+ Str.nl +:+ Str.nl.

(** The cue blocks of the segments, one after the other in the order of
    the input. *)
Definition cue_blocks (segs : list Segment) : string :=
  fold_right String.append "" (map cue_block segs).

Definition caption_document (segs : list Segment) : string :=
  "WEBVTT" +:+ Str.nl +:+ Str.nl +:+ cue_blocks segs.

(** What follows the last [/] of a path. *)
Fixpoint last_component (s : string) : string :=
  match s with
  | EmptyString => ""
  | String a s' => if Str.has_char "/" s then last_component s' else s
  end.

Fixpoint all_dots (s : string) : bool :=
  match s with
  | EmptyString => true
  | String a s' => Ascii.eqb a "." && all_dots s'
  end.

(** A stem names a file when its last component is more than dots, and
    an extension is plain when it has neither a dot nor a separator:
    [clip] and [wav] in [clip.wav]. *)
Definition has_name (stem : string) : Prop := all_dots (last_component stem) = false.

Definition plain_ext (ext : string) : Prop :=
  Str.has_char "." ext = false /\ Str.has_char "/" ext = false.

(** The timestamp of a directory name, [YYYYMMDD_HHMMSS]. *)
Definition stamp (t : datetime) : string :=
  Py.format_int_zero 4 (year t) +:+ Py.format_int_zero 2 (month t)
    +:+ Py.format_int_zero 2 (day t) +:+ "_"
    +:+ Py.format_int_zero 2 (hour t) +:+ Py.format_int_zero 2 (minute t)
    +:+ Py.format_int_zero 2 (second t).

(** Two clock readings within the same second. *)
Definition same_second (t1 t2 : datetime) : Prop :=
  year t1 = year t2 /\ month t1 = month t2 /\ day t1 = day t2 /\
  hour t1 = hour t2 /\ minute t1 = minute t2 /\ second t1 = second t2.

End Spec.

(** ** A sample request *)

Module Sample.

Definition token : string := "s3cret".
Definition static_folder : string := "static".

Definition result : TranscriptionResult :=
  {| text := "hello world";
     segments := [ {| seg_start := 0; seg_end := 3 # 2; seg_text := "hello" |};
                   {| seg_start := 3 # 2; seg_end := 7323 # 2; seg_text := "world" |} ] |}.

Definition engine_ok : string -> World -> exn + TranscriptionResult :=
  fun _ _ => inr result.

Definition no_fault : io_op -> World -> outcome := fun _ _ => fine.

(** The disk fills up while the captions are written: the write of the
    second cue fails, and what was written before it is on disk. *)
Definition disk_full : io_op -> World -> outcome :=
  fun op w =>
    match op with
    | Write path _ =>
        if Str.ends_with path ".vtt"
           && (8 <? String.length (default "" (files w !! path)))%nat
        then {| raised := Some (OSError "[Errno 28] No space left on device");
                on_disk := String.length (default "" (files w !! path));
                made := ∅ |}
        else fine
    | _ => fine
    end.

Definition upload : FileStorage := {| filename := "clip.wav"; stream := "RIFF" |}.

Definition request : Request :=
  {| headers := {[ "Authorization" := token ]};
     form_files := {[ "audio_file" := upload ]} |}.

Definition request_bad_token : Request :=
  {| headers := {[ "Authorization" := "guess" ]};
     form_files := {[ "audio_file" := upload ]} |}.

Definition request_no_file : Request :=
  {| headers := {[ "Authorization" := token ]}; form_files := ∅ |}.

Definition now : datetime :=
  {| year := 2024; month := 3; day := 7;
     hour := 9; minute := 5; second := 0; microsecond := 12 |}.

Definition later_in_the_second : datetime :=
  {| year := 2024; month := 3; day := 7;
     hour := 9; minute := 5; second := 0; microsecond := 999999 |}.

Definition world : World := {| dirs := {[ static_folder ]}; files := ∅; log := [] |}.

(** The names and the worlds that the sample request leads to. *)
Definition folder : string := "static/clip_20240307_090500".
Definition audio_path : string := folder +:+ "/clip.wav".
Definition text_path : string := folder +:+ "/clip_transcribed.txt".
Definition vtt_path : string := folder +:+ "/clip.vtt".

Definition first_cue : string :=
  "00:00:00.000 --> 00:00:01.000" +:+ Str.nl +:+ "hello" +:+ Str.nl +:+ Str.nl.

Definition second_cue : string :=
  "00:00:01.000 --> 01:01:01.000" +:+ Str.nl +:+ "world" +:+ Str.nl +:+ Str.nl.

Definition header : string := "WEBVTT" +:+ Str.nl +:+ Str.nl.

Definition body_served : Body :=
  Json {[ "transcribed_text" := "hello world";
          "text_file_path" := text_path;
          "vtt_file_path" := vtt_path ]}.

Definition world_served : World :=
  {| dirs := {[ folder; static_folder ]};
     files := {[ audio_path := "RIFF";
                 text_path := "hello world";
                 vtt_path := header +:+ first_cue +:+ second_cue ]};
     log := [ (INFO, "Transcribing audio file: " +:+ audio_path);
              (INFO, "Transcription completed for file: " +:+ audio_path) ] |}.

Definition world_disk_full : World :=
  {| dirs := {[ folder; static_folder ]};
     files := {[ audio_path := "RIFF";
                 text_path := "hello world";
                 vtt_path := header +:+ first_cue ]};
     log := [ (INFO, "Transcribing audio file: " +:+ audio_path) ] |}.

(** Failures at the three steps before the artifacts are written.  An
    upload named [sub/clip.wav] asks for a directory two levels below the
    storage root: the parent is made and the directory itself is not. *)
Definition upload_sub : FileStorage := {| filename := "sub/clip.wav"; stream := "RIFF" |}.

Definition request_sub : Request :=
  {| headers := {[ "Authorization" := token ]};
     form_files := {[ "audio_file" := upload_sub ]} |}.

Definition leaf_fails : io_op -> World -> outcome :=
  fun op _ =>
    match op with
    | MakeDirs _ =>
        {| raised := Some (OSError "[Errno 36] File name too long");
           on_disk := 0; made := {[ "static/sub" ]} |}
    | _ => fine
    end.

Definition world_leaf_failed : World :=
  {| dirs := {[ "static/sub"; static_folder ]}; files := ∅; log := [] |}.

(** The disk fills up while the upload is copied: two characters of it
    are on disk. *)
Definition copy_fails : io_op -> World -> outcome :=
  fun op _ =>
    match op with
    | Write path _ =>
        if Str.ends_with path ".wav"
        then {| raised := Some (OSError "[Errno 28] No space left on device");
                on_disk := 2; made := ∅ |}
        else fine
    | _ => fine
    end.

Definition world_copy_failed : World :=
  {| dirs := {[ "static/clip_20240307_090500"; static_folder ]};
     files := {[ "static/clip_20240307_090500/clip.wav" := "RI" ]}; log := [] |}.

Definition engine_fails : string -> World -> exn + TranscriptionResult :=
  fun _ _ => inl (RuntimeError "Failed to load audio").

(** An upload that names an absolute path, and one whose extension is
    that of the caption file. *)
Definition upload_absolute : FileStorage := {| filename := "/srv/clip.wav"; stream := "RIFF" |}.

Definition request_absolute : Request :=
  {| headers := {[ "Authorization" := token ]};
     form_files := {[ "audio_file" := upload_absolute ]} |}.

Definition upload_vtt : FileStorage := {| filename := "clip.vtt"; stream := "RIFF" |}.

Definition request_vtt : Request :=
  {| headers := {[ "Authorization" := token ]};
     form_files := {[ "audio_file" := upload_vtt ]} |}.

Definition model_loads : string -> World -> option exn := fun _ _ => None.

(** The world after the sample request was served a second time within
    the same second, and after the upload named [clip.vtt] was served. *)
Definition world_served_twice : World :=
  {| dirs := dirs world_served; files := files world_served;
     log := log world_served ++ log world_served |}.

Definition world_vtt_served : World :=
  {| dirs := {[ folder; static_folder ]};
     files := {[ text_path := "hello world";
                 vtt_path := header +:+ first_cue +:+ second_cue ]};
     log := [ (INFO, "Transcribing audio file: " +:+ vtt_path);
              (INFO, "Transcription completed for file: " +:+ vtt_path) ] |}.

(** The worlds around the start of the application. *)
Definition world_fresh : World := {| dirs := ∅; files := ∅; log := [] |}.

Definition startup_log : list (log_level * string) :=
  [ (INFO, "Loading model..."); (INFO, "Model loaded successfully.") ].

Definition world_started : World :=
  {| dirs := {[ static_folder ]}; files := ∅; log := startup_log |}.

(** A deployment with an absolute storage root, and the application's
    module in another directory. *)
Definition static_abs : string := "/srv/static".
Definition root_path : string := "/srv/app".

Definition world_abs : World := {| dirs := {[ static_abs ]}; files := ∅; log := [] |}.

Definition folder_abs : string := "/srv/static/clip_20240307_090500".
Definition audio_abs : string := folder_abs +:+ "/clip.wav".
Definition text_abs : string := folder_abs +:+ "/clip_transcribed.txt".
Definition vtt_abs : string := folder_abs +:+ "/clip.vtt".

Definition body_abs_served : Body :=
  Json {[ "transcribed_text" := "hello world";
          "text_file_path" := text_abs;
          "vtt_file_path" := vtt_abs ]}.

Definition world_abs_served : World :=
  {| dirs := {[ folder_abs; static_abs ]};
     files := {[ audio_abs := "RIFF";
                 text_abs := "hello world";
                 vtt_abs := header +:+ first_cue +:+ second_cue ]};
     log := [ (INFO, "Transcribing audio file: " +:+ audio_abs);
              (INFO, "Transcription completed for file: " +:+ audio_abs) ] |}.

(** A world where the path of a download is a directory: the one that
    the upload [sub/clip.wav] asked for. *)
Definition world_with_directory : World :=
  {| dirs := {[ "/srv/app/static/sub/clip_20240307_090500"; "/srv/app/static/sub";
                "/srv/app/static" ]};
     files := ∅; log := [] |}.

End Sample.

(** * Properties *)

(** ** Strings *)

Section StrFacts.

Lemma str_app_nil_l (s : string) : "" +:+ s = s.
Proof. reflexivity. Qed.

Lemma str_app_cons (c : ascii) (s t : string) : String c s +:+ t = String c (s +:+ t).
Proof. reflexivity. Qed.

Lemma str_app_nil_r (s : string) : s +:+ "" = s.
Proof. induction s as [|c s IH]; [reflexivity | now rewrite str_app_cons, IH]. Qed.

Lemma str_app_assoc (s t u : string) : (s +:+ t) +:+ u = s +:+ (t +:+ u).
Proof. induction s as [|c s IH]; [reflexivity | now rewrite !str_app_cons, IH]. Qed.

Lemma str_length_app (s t : string) :
  String.length (s +:+ t) = (String.length s + String.length t)%nat.
Proof.
  induction s as [|c s IH]; [reflexivity | rewrite str_app_cons; simpl; now rewrite IH].
Qed.

Lemma length_replicate (n : nat) (c : ascii) :
  String.length (Str.replicate n c) = n.
Proof. induction n as [|n IH]; simpl; [reflexivity | now rewrite IH]. Qed.

Lemma length_zero_fill (width : nat) (s : string) :
  String.length (Str.zero_fill width s) = Nat.max width (String.length s).
Proof. unfold Str.zero_fill. rewrite str_length_app, length_replicate. lia. Qed.

End StrFacts.

(** ** Decimal rendering *)

Section DecimalFacts.

Lemma digit_char_code (d : Z) :
  0 <= d < 10 -> nat_of_ascii (Py.digit_char d) = (48 + Z.to_nat d)%nat.
Proof.
  intros Hd. unfold Py.digit_char. apply nat_ascii_embedding. lia.
Qed.

Lemma digit_value_char (d : Z) : 0 <= d < 10 -> Py.digit_value (Py.digit_char d) = d.
Proof. intros Hd. unfold Py.digit_value. rewrite digit_char_code by exact Hd. lia. Qed.

Lemma is_digit_char (d : Z) : 0 <= d < 10 -> Spec.is_digit (Py.digit_char d).
Proof. intros Hd. unfold Spec.is_digit. rewrite digit_char_code by exact Hd. lia. Qed.

Lemma digit_char_nonzero (d : Z) : 0 < d < 10 -> Py.digit_char d <> "0"%char.
Proof.
  intros Hd Heq. apply (f_equal nat_of_ascii) in Heq.
  rewrite digit_char_code in Heq by lia.
  change (nat_of_ascii "0") with 48%nat in Heq. lia.
Qed.

Lemma all_digits_app (s t : string) :
  Spec.all_digits s -> Spec.all_digits t -> Spec.all_digits (s +:+ t).
Proof.
  induction s as [|c s IH]; intros Hs Ht; [exact Ht|].
  rewrite str_app_cons. destruct Hs as [Hc Hs]. split; [exact Hc | now apply IH].
Qed.

Lemma all_digits_replicate (n : nat) : Spec.all_digits (Str.replicate n "0"%char).
Proof.
  induction n as [|n IH]; simpl; [exact I|].
  split; [unfold Spec.is_digit; change (nat_of_ascii "0") with 48%nat; lia | exact IH].
Qed.

Lemma decimal_value_from_app (acc : Z) (s t : string) :
  Py.decimal_value_from acc (s +:+ t)
  = Py.decimal_value_from (Py.decimal_value_from acc s) t.
Proof.
  revert acc. induction s as [|c s IH]; intros acc; [reflexivity|].
  rewrite str_app_cons. simpl. apply IH.
Qed.

Lemma decimal_value_from_zeros (n : nat) (s : string) :
  Py.decimal_value_from 0 (Str.replicate n "0"%char +:+ s) = Py.decimal_value_from 0 s.
Proof.
  induction n as [|n IH]; [reflexivity|].
  simpl Str.replicate. rewrite str_app_cons. simpl. exact IH.
Qed.

(** The accumulator of [digits_aux] is a suffix of its result. *)
Lemma digits_aux_acc (fuel : nat) (n : Z) (acc : string) :
  Py.digits_aux fuel n acc = Py.digits_aux fuel n "" +:+ acc.
Proof.
  revert n acc. induction fuel as [|fuel IH]; intros n acc; [reflexivity|].
  simpl. destruct (n <? 10); [reflexivity|].
  rewrite (IH _ (String _ acc)), (IH _ (String _ "")).
  now rewrite str_app_assoc.
Qed.

Lemma digits_aux_small (fuel : nat) (n : Z) :
  n < 10 -> Py.digits_aux (S fuel) n "" = String (Py.digit_char (n mod 10)) "".
Proof. intros Hn. simpl. now apply Z.ltb_lt in Hn as ->. Qed.

Lemma digits_aux_large (fuel : nat) (n : Z) :
  10 <= n ->
  Py.digits_aux (S fuel) n ""
  = Py.digits_aux fuel (n / 10) "" +:+ String (Py.digit_char (n mod 10)) "".
Proof.
  intros Hn. simpl. apply Z.ltb_ge in Hn as ->. apply digits_aux_acc.
Qed.

(** With enough fuel, [digits_aux] yields the decimal numeral of [n]. *)
Lemma digits_aux_numeral (fuel : nat) (n : Z) :
  (0 < fuel)%nat -> 0 <= n < 2 ^ Z.of_nat fuel ->
  let ds := Py.digits_aux fuel n "" in
  Spec.all_digits ds /\ Py.decimal_value ds = n /\
  (1 <= String.length ds)%nat /\
  (0 < n -> String.get 0 ds <> Some "0"%char) /\
  (forall k : nat, (1 <= k)%nat -> n < 10 ^ Z.of_nat k -> (String.length ds <= k)%nat).
Proof.
  revert n. induction fuel as [|fuel IH]; intros n Hfuel Hn; [lia|].
  destruct (Z_lt_ge_dec n 10) as [Hlt|Hge].
  - cbv zeta. rewrite digits_aux_small by exact Hlt.
    rewrite Z.mod_small by lia.
    split; [split; [apply is_digit_char; lia | exact I]|].
    split; [unfold Py.decimal_value; simpl; rewrite digit_value_char; lia|].
    split; [simpl; lia|].
    split; [|intros k Hk _; simpl; lia].
    intros Hpos. simpl. intros Heq. injection Heq as Heq.
    revert Heq. apply digit_char_nonzero. lia.
  - assert (Hdiv : 0 < n / 10) by (apply Z.div_str_pos; lia).
    assert (Hmod : 0 <= n mod 10 < 10) by (apply Z.mod_pos_bound; lia).
    assert (Hfuel' : (0 < fuel)%nat).
    { destruct fuel; [|lia]. simpl in Hn. lia. }
    assert (Hbound : 0 <= n / 10 < 2 ^ Z.of_nat fuel).
    { split; [lia|]. apply Z.div_lt_upper_bound; [lia|].
      rewrite Nat2Z.inj_succ, Z.pow_succ_r in Hn by lia. lia. }
    specialize (IH (n / 10) Hfuel' Hbound). cbv zeta in IH.
    destruct IH as (Hall & Hval & Hlen & Hlead & Hwidth).
    cbv zeta. rewrite digits_aux_large by lia.
    set (ds := Py.digits_aux fuel (n / 10) "") in *.
    split.
    { apply all_digits_app; [exact Hall|]. split; [now apply is_digit_char | exact I]. }
    split.
    { unfold Py.decimal_value in *. rewrite decimal_value_from_app, Hval. simpl.
      rewrite digit_value_char by exact Hmod.
      pose proof (Z.div_mod n 10). lia. }
    split; [rewrite str_length_app; simpl; lia|].
    split.
    { intros _. rewrite <- (String.append_correct1 ds _ 0%nat) by lia. now apply Hlead. }
    intros k Hk Hnk. rewrite str_length_app. simpl.
    destruct k as [|k]; [lia|].
    destruct k as [|k]; [simpl in Hnk; lia|].
    assert ((String.length ds <= S k)%nat); [|lia].
    apply Hwidth; [lia|].
    apply Z.div_lt_upper_bound; [lia|].
    rewrite (Nat2Z.inj_succ (S k)), Z.pow_succ_r in Hnk by lia. exact Hnk.
Qed.

Lemma str_of_nonneg_numeral (n : Z) :
  0 <= n ->
  let ds := Py.str_of_nonneg n in
  Spec.all_digits ds /\ Py.decimal_value ds = n /\
  (1 <= String.length ds)%nat /\
  (0 < n -> String.get 0 ds <> Some "0"%char) /\
  (forall k : nat, (1 <= k)%nat -> n < 10 ^ Z.of_nat k -> (String.length ds <= k)%nat).
Proof.
  intros Hn. apply digits_aux_numeral; [lia|].
  split; [exact Hn|].
  rewrite Nat2Z.inj_succ, Z2Nat.id by apply Z.log2_nonneg.
  destruct (Z.eq_dec n 0) as [->|Hne]; [reflexivity|].
  apply Z.log2_spec. lia.
Qed.

(** A non-negative [n] formatted with [0<width>] is its numeral padded
    with zeros. *)
Lemma format_int_zero_padded (width : nat) (n : Z) :
  (1 <= width)%nat -> 0 <= n -> Spec.zero_padded width n (Py.format_int_zero width n).
Proof.
  intros Hw Hn. unfold Py.format_int_zero.
  assert (Hge : (n <? 0) = false) by now apply Z.ltb_ge. rewrite Hge.
  destruct (str_of_nonneg_numeral n Hn) as (Hall & Hval & Hlen & Hlead & _).
  set (ds := Py.str_of_nonneg n) in *.
  unfold Spec.zero_padded. rewrite length_zero_fill.
  split; [apply all_digits_app; [apply all_digits_replicate | exact Hall]|].
  split; [unfold Py.decimal_value in *; unfold Str.zero_fill;
          now rewrite decimal_value_from_zeros|].
  split; [lia|].
  intros Hlong. unfold Str.zero_fill.
  replace (width - String.length ds)%nat with 0%nat by lia. simpl Str.replicate.
  rewrite str_app_nil_l. apply Hlead.
  destruct (Z.eq_dec n 0) as [->|Hne]; [|lia].
  exfalso. assert (String.length ds <= 1)%nat; [|lia].
  apply (proj2 (proj2 (proj2 (proj2 (str_of_nonneg_numeral 0 Hn)))) 1%nat); [lia|reflexivity].
Qed.

(** Below [10 ^ width] the field has exactly [width] characters. *)
Lemma format_int_zero_length (width : nat) (n : Z) :
  (1 <= width)%nat -> 0 <= n < 10 ^ Z.of_nat width ->
  String.length (Py.format_int_zero width n) = width.
Proof.
  intros Hw [Hn Hlt]. unfold Py.format_int_zero.
  assert (Hge : (n <? 0) = false) by now apply Z.ltb_ge. rewrite Hge.
  rewrite length_zero_fill.
  destruct (str_of_nonneg_numeral n Hn) as (_ & _ & _ & _ & Hwidth).
  specialize (Hwidth width Hw Hlt). lia.
Qed.

End DecimalFacts.

(** ** Float arithmetic on non-negative values *)

Section FloatFacts.

Local Open Scope Q_scope.

Lemma trunc_nonneg (q : Q) : 0 <= q -> Py.trunc q = Qfloor q.
Proof.
  destruct q as [n d]. unfold Qle, Py.trunc, Qfloor. simpl. intros Hn.
  apply Z.quot_div_nonneg; lia.
Qed.

Lemma is_neg_nonneg (q : Q) : 0 <= q -> Py.is_neg q = false.
Proof. intros Hq. unfold Py.is_neg. apply Qle_bool_iff in Hq. now rewrite Hq. Qed.

Lemma div_nonneg (x y : Q) : 0 <= x -> 0 < y -> 0 <= x / y.
Proof. intros Hx Hy. apply Qle_shift_div_l; [exact Hy|]. now rewrite Qmult_0_l. Qed.

Lemma Qmod_bounds (x y : Q) : 0 < y -> 0 <= Spec.Qmod x y /\ Spec.Qmod x y < y.
Proof.
  intros Hy. unfold Spec.Qmod.
  pose proof (Qfloor_le (x / y)) as Hlo. pose proof (Qlt_floor (x / y)) as Hhi.
  rewrite inject_Z_plus in Hhi. change (inject_Z 1) with 1 in Hhi.
  assert (Hd : x / y * y == x) by (field; intros H0; rewrite H0 in Hy; now apply Qlt_irrefl in Hy).
  set (d := x / y) in *. set (t := inject_Z (Qfloor d)) in *.
  clearbody t. clearbody d.
  assert (Hlow : 0 <= (d - t) * y) by (apply Qmult_le_0_compat; lra).
  assert (Hupp : 0 < (t + 1 - d) * y) by (apply Qmult_lt_0_compat; lra).
  split; lra.
Qed.

Lemma fmod_nonneg (x y : Q) : 0 <= x -> 0 < y -> Py.fmod x y == Spec.Qmod x y.
Proof.
  intros Hx Hy. unfold Py.fmod, Spec.Qmod.
  rewrite trunc_nonneg by now apply div_nonneg. ring.
Qed.

(** On a non-negative dividend and a positive divisor, [%] is the
    remainder of the floored quotient. *)
Lemma float_rem_nonneg (x y : Q) :
  0 <= x -> 0 < y -> Py.float_rem x y == Spec.Qmod x y.
Proof.
  intros Hx Hy. pose proof (fmod_nonneg x y Hx Hy) as Hmod.
  destruct (Qmod_bounds x y Hy) as [Hlo _].
  unfold Py.float_rem.
  destruct (Py.is_zero (Py.fmod x y)) eqn:Hz; simpl.
  - apply Qeq_bool_iff in Hz. now rewrite <- Hmod, Hz.
  - rewrite (is_neg_nonneg y) by now apply Qlt_le_weak.
    rewrite (is_neg_nonneg (Py.fmod x y)) by now rewrite Hmod.
    exact Hmod.
Qed.

Lemma pow2_inverse (k : Z) : (0 <= k)%Z -> inject_Z (2 ^ k) * Py.pow2 (- k) == 1.
Proof.
  intros Hk. unfold Py.pow2.
  destruct (Z.eq_dec k 0%Z) as [->|Hne]; [reflexivity|].
  assert (Hneg : (0 <=? - k)%Z = false) by (apply Z.leb_gt; lia).
  rewrite Hneg, Z.opp_involutive.
  assert (Hpos : (0 < 2 ^ k)%Z) by (apply Z.pow_pos_nonneg; lia).
  unfold Qeq, Qmult, inject_Z. cbn [Qnum Qden].
  rewrite Pos.mul_1_l, Z2Pos.id by exact Hpos. lia.
Qed.

Lemma round_half_even_Z (q : Q) (n : Z) : q == inject_Z n -> Py.round_half_even q = n.
Proof.
  intros Hq. unfold Py.round_half_even.
  assert (Hfl : Qfloor q = n) by (rewrite Hq; apply Qfloor_Z).
  rewrite Hfl.
  assert (Hlt : Qcompare (q - inject_Z n) (1 # 2) = Lt).
  { rewrite Hq. apply (proj1 (Qlt_alt _ _)). set (t := inject_Z n). clearbody t. lra. }
  now rewrite Hlt.
Qed.

(** Rounding leaves an integer below [2 ^ 53] as it is. *)
Lemma round64_Z (q : Q) (z : Z) :
  q == inject_Z z -> (0 <= z < 2 ^ 53)%Z -> Py.round64 q == inject_Z z.
Proof.
  intros Hq Hz. unfold Py.round64.
  destruct (Qeq_bool q 0) eqn:H0.
  { apply Qeq_bool_iff in H0. now rewrite <- Hq, H0. }
  assert (Hz1 : (1 <= z)%Z).
  { destruct (Z.eq_dec z 0%Z) as [->|Hne]; [|lia].
    apply Qeq_bool_iff in Hq. change (inject_Z 0) with 0 in Hq. congruence. }
  assert (Hq0 : 0 <= q) by (rewrite Hq; change 0 with (inject_Z 0); rewrite <- Zle_Qle; lia).
  assert (Ha : Qabs q == inject_Z z) by (rewrite Qabs_pos by exact Hq0; exact Hq).
  assert (Hle : Qle_bool 0 q = true) by now apply Qle_bool_iff.
  rewrite Hle.
  assert (Hlog : Py.ilog2 (Qabs q) = Z.log2 z).
  { unfold Py.ilog2.
    assert (H1 : Qle_bool 1 (Qabs q) = true).
    { apply Qle_bool_iff. rewrite Ha. change 1 with (inject_Z 1). rewrite <- Zle_Qle. lia. }
    rewrite H1, Ha. now rewrite Qfloor_Z. }
  rewrite Hlog.
  assert (Hl : (0 <= Z.log2 z < 53)%Z).
  { split; [apply Z.log2_nonneg|]. apply Z.log2_lt_pow2; lia. }
  set (k := (52 - Z.log2 z)%Z).
  assert (He : Z.max (-1074) (Z.log2 z - 52) = (- k)%Z) by (unfold k; lia).
  rewrite He, Z.opp_involutive.
  assert (Hk : (0 <= k)%Z) by (unfold k; lia).
  assert (Hm : Py.round_half_even (Qabs q * Py.pow2 k) = (z * 2 ^ k)%Z).
  { apply round_half_even_Z. rewrite Ha. unfold Py.pow2.
    assert (Hk' : (0 <=? k)%Z = true) by now apply Z.leb_le.
    rewrite Hk'. now rewrite inject_Z_mult. }
  rewrite Hm, inject_Z_mult, <- Qmult_assoc, pow2_inverse by exact Hk.
  apply Qmult_1_r.
Qed.

(** ... and [//] followed by [int] is the floored quotient, when the
    dividend is below [2 ^ 53] and the divisor is a positive integer: the
    subtraction and the division of [_float_div_mod] are then exact. *)
Lemma float_floor_div_nonneg (x : Q) (k : Z) :
  0 <= x -> x < inject_Z (2 ^ 53) -> (0 < k)%Z ->
  Py.int_of_float (Py.float_floor_div x (inject_Z k)) = Qfloor (x / inject_Z k).
Proof.
  intros Hx Hbound Hk. set (y := inject_Z k).
  assert (Hy : 0 < y) by (unfold y; change 0 with (inject_Z 0); rewrite <- Zlt_Qlt; exact Hk).
  pose proof (fmod_nonneg x y Hx Hy) as Hmod.
  destruct (Qmod_bounds x y Hy) as [Hlo _].
  assert (Hy0 : ~ y == 0) by (intros H0; rewrite H0 in Hy; now apply Qlt_irrefl in Hy).
  set (t := Qfloor (x / y)).
  assert (Ht : (0 <= t)%Z).
  { unfold t. change 0%Z with (Qfloor 0). apply Qfloor_resp_le. now apply div_nonneg. }
  assert (Hprod : x - Py.fmod x y == inject_Z (k * t)).
  { rewrite Hmod, inject_Z_mult. unfold Spec.Qmod. fold y t. ring. }
  assert (Hkt : (0 <= k * t < 2 ^ 53)%Z).
  { split; [lia|]. rewrite Zlt_Qlt. eapply Qle_lt_trans; [|exact Hbound].
    rewrite <- Hprod, Hmod. set (r := Spec.Qmod x y) in *. clearbody r. lra. }
  assert (Hsub : Py.fsub x (Py.fmod x y) == inject_Z (k * t)).
  { unfold Py.fsub. now apply round64_Z. }
  assert (Hdiv : Py.fdiv (Py.fsub x (Py.fmod x y)) y == inject_Z t).
  { unfold Py.fdiv. apply round64_Z; [|nia].
    rewrite Hsub, inject_Z_mult. fold y. field. exact Hy0. }
  assert (Hsame : forall div : Q, div == inject_Z t ->
             (if negb (Py.is_zero div)
              then let f := inject_Z (Py.floor div) in
                   if negb (Qle_bool (Py.fsub div f) (1 # 2)) then Py.fadd f 1 else f
              else 0) == inject_Z t).
  { intros div Hd. destruct (Py.is_zero div) eqn:Hz; cbn [negb].
    - apply Qeq_bool_iff in Hz. now rewrite <- Hd, Hz.
    - assert (Hfl : Py.floor div = t) by (unfold Py.floor; rewrite Hd; apply Qfloor_Z).
      cbv zeta. rewrite Hfl.
      assert (Hzero : Py.fsub div (inject_Z t) == inject_Z 0).
      { unfold Py.fsub. apply round64_Z; [|lia]. rewrite Hd.
        change (inject_Z 0) with 0. ring. }
      assert (Hle : Qle_bool (Py.fsub div (inject_Z t)) (1 # 2) = true).
      { apply Qle_bool_iff. rewrite Hzero. discriminate. }
      rewrite Hle. cbn [negb]. reflexivity. }
  assert (Hint : forall q : Q, q == inject_Z t -> Py.trunc q = t).
  { intros q Hq. rewrite trunc_nonneg.
    - rewrite Hq. apply Qfloor_Z.
    - rewrite Hq. change 0 with (inject_Z 0). now rewrite <- Zle_Qle. }
  unfold Py.int_of_float, Py.float_floor_div, Py.float_div_mod.
  rewrite (is_neg_nonneg y) by now apply Qlt_le_weak.
  rewrite (is_neg_nonneg (Py.fmod x y)) by now rewrite Hmod.
  simpl xorb. cbv iota.
  destruct (negb (Py.is_zero (Py.fmod x y))); simpl fst; apply Hint; apply Hsame; exact Hdiv.
Qed.

End FloatFacts.

(** ** [format_timestamp] *)

Section FormatTimestampFacts.

Local Open Scope Q_scope.

Lemma Qfloor_range (q : Q) (n : Z) :
  0 <= q -> q < inject_Z n -> (0 <= Qfloor q < n)%Z.
Proof.
  intros Hlo Hhi. split.
  - change 0%Z with (Qfloor 0). now apply Qfloor_resp_le.
  - rewrite Zlt_Qlt. eapply Qle_lt_trans; [apply Qfloor_le | exact Hhi].
Qed.

Lemma hours_nonneg (s : Q) : 0 <= s -> (0 <= Spec.hours s)%Z.
Proof.
  intros Hs. unfold Spec.hours. change 0%Z with (Qfloor 0).
  apply Qfloor_resp_le. apply div_nonneg; [exact Hs | reflexivity].
Qed.

Lemma minutes_range (s : Q) : (0 <= Spec.minutes s < 60)%Z.
Proof.
  unfold Spec.minutes.
  destruct (Qmod_bounds s 3600) as [Hlo Hhi]; [reflexivity|].
  apply Qfloor_range.
  - apply div_nonneg; [exact Hlo | reflexivity].
  - apply Qlt_shift_div_r; [reflexivity | exact Hhi].
Qed.

Lemma secs_range (s : Q) : (0 <= Spec.secs s < 60)%Z.
Proof.
  unfold Spec.secs.
  destruct (Qmod_bounds s 60) as [Hlo Hhi]; [reflexivity|].
  now apply Qfloor_range.
Qed.

(** The integers of the source are those of the decomposition, and the
    fourth one is zero. *)
Lemma timestamp_fields_nonneg (s : Q) :
  0 <= s -> s < inject_Z (2 ^ 53) ->
  timestamp_fields s = (Spec.hours s, Spec.minutes s, Spec.secs s, 0%Z).
Proof.
  intros Hs Hb. unfold timestamp_fields.
  destruct (Qmod_bounds s 3600) as [Hlo Hhi]; [reflexivity|].
  destruct (Qmod_bounds s 60) as [Hlo' _]; [reflexivity|].
  pose proof (float_rem_nonneg s 3600 Hs eq_refl) as Hrem.
  pose proof (float_rem_nonneg s 60 Hs eq_refl) as Hrem'.
  pose proof (float_floor_div_nonneg s 3600 Hs Hb eq_refl) as Hh.
  assert (Hm : Py.int_of_float (Py.float_floor_div (Py.float_rem s 3600) (inject_Z 60))
               = Qfloor (Py.float_rem s 3600 / inject_Z 60)).
  { apply float_floor_div_nonneg; [now rewrite Hrem | | reflexivity].
    rewrite Hrem. eapply Qlt_trans; [exact Hhi | reflexivity]. }
  change (inject_Z 3600) with 3600 in Hh. change (inject_Z 60) with 60 in Hm.
  rewrite Hh, Hm.
  unfold Py.int_of_float at 1. rewrite trunc_nonneg by now rewrite Hrem'.
  unfold Py.int_of_int. rewrite Z.mod_1_r.
  unfold Spec.hours, Spec.minutes, Spec.secs.
  now rewrite Hrem, Hrem'.
Qed.

Lemma timestamp_fields_millis (s : Q) : snd (timestamp_fields s) = 0%Z.
Proof. unfold timestamp_fields, Py.int_of_int. simpl snd. now rewrite Z.mod_1_r. Qed.

(** C10. Whatever the input, the fourth number that [format_timestamp]
    computes is zero (it is taken from the integer that [seconds] was
    rebound to), so the returned string is the hour, minute and second
    fields followed by [.000]. *)
Theorem format_timestamp_millis_zero (seconds : Q) :
  snd (timestamp_fields seconds) = 0%Z /\
  format_timestamp seconds
  = Py.format_int_zero 2 (fst (fst (fst (timestamp_fields seconds)))) +:+ ":"
    +:+ Py.format_int_zero 2 (snd (fst (fst (timestamp_fields seconds)))) +:+ ":"
    +:+ Py.format_int_zero 2 (snd (fst (timestamp_fields seconds))) +:+ ".000".
Proof.
  pose proof (timestamp_fields_millis seconds) as Hms.
  split; [exact Hms|].
  unfold format_timestamp.
  destruct (timestamp_fields seconds) as [[[h m] sec] ms].
  simpl in Hms. subst ms. reflexivity.
Qed.

(** A numeral that a colon follows is determined by the whole string. *)
Lemma digits_before_colon (s s' r r' : string) :
  Spec.all_digits s -> Spec.all_digits s' ->
  s +:+ ":" +:+ r = s' +:+ ":" +:+ r' -> s = s'.
Proof.
  assert (Hcolon : forall c, Spec.is_digit c -> c <> ":"%char).
  { intros c Hc ->. unfold Spec.is_digit in Hc.
    change (nat_of_ascii ":") with 58%nat in Hc. lia. }
  revert s'. induction s as [|c s IH]; intros [|c' s'] Hs Hs' Heq.
  - reflexivity.
  - rewrite str_app_nil_l, !str_app_cons in Heq. injection Heq as Hc _.
    destruct Hs' as [Hd _]. apply Hcolon in Hd. congruence.
  - rewrite str_app_nil_l, !str_app_cons in Heq. injection Heq as Hc _.
    destruct Hs as [Hd _]. apply Hcolon in Hd. congruence.
  - rewrite !str_app_cons in Heq. injection Heq as Hc Heq.
    destruct Hs as [_ Hs]. destruct Hs' as [_ Hs'].
    now rewrite Hc, (IH s' Hs Hs' Heq).
Qed.

(** C2 (amended). A binary64 [seconds] with [0 <= seconds < 2 ^ 53] is
    rendered as [HH:MM:SS.mmm], where [HH], [MM] and [SS] are the numerals
    of [floor(seconds/3600)], [floor((seconds mod 3600)/60)] and
    [floor(seconds mod 60)] padded with zeros to two digits, and [mmm] is
    three digits.  The minute and second fields have exactly two
    characters; the hour field has at least two and always carries the
    whole numeral, so hours do not wrap at 100.  In particular
    [format_timestamp(0.0)] is [00:00:00.000]. *)
Theorem format_timestamp_decomposition (seconds : Q) :
  Py.is_binary64 seconds = true ->
  0 <= seconds -> seconds < inject_Z (2 ^ 53) ->
  exists hh mm ss mmm : string,
    format_timestamp seconds = hh +:+ ":" +:+ mm +:+ ":" +:+ ss +:+ "." +:+ mmm /\
    Spec.zero_padded 2 (Spec.hours seconds) hh /\
    Spec.zero_padded 2 (Spec.minutes seconds) mm /\ String.length mm = 2%nat /\
    Spec.zero_padded 2 (Spec.secs seconds) ss /\ String.length ss = 2%nat /\
    Spec.all_digits mmm /\ String.length mmm = 3%nat /\
    format_timestamp 0 = "00:00:00.000".
Proof.
  intros _ Hs Hb.
  pose proof (hours_nonneg seconds Hs) as Hh.
  pose proof (minutes_range seconds) as Hm.
  pose proof (secs_range seconds) as Hsec.
  exists (Py.format_int_zero 2 (Spec.hours seconds)),
         (Py.format_int_zero 2 (Spec.minutes seconds)),
         (Py.format_int_zero 2 (Spec.secs seconds)),
         (Py.format_int_zero 3 0).
  split.
  { unfold format_timestamp. now rewrite timestamp_fields_nonneg. }
  split; [apply format_int_zero_padded; lia|].
  split; [apply format_int_zero_padded; lia|].
  split; [apply format_int_zero_length; lia|].
  split; [apply format_int_zero_padded; lia|].
  split; [apply format_int_zero_length; lia|].
  split; [apply (format_int_zero_padded 3 0); lia|].
  split; [apply format_int_zero_length; lia|].
  vm_compute. reflexivity.
Qed.

Lemma format_timestamp_decomposition_witness :
  Py.is_binary64 (360000 # 1) = true /\
  0 <= 360000 # 1 /\ 360000 # 1 < inject_Z (2 ^ 53) /\
  exists hh mm ss mmm : string,
    format_timestamp (360000 # 1) = hh +:+ ":" +:+ mm +:+ ":" +:+ ss +:+ "." +:+ mmm /\
    Spec.zero_padded 2 (Spec.hours (360000 # 1)) hh /\
    Spec.zero_padded 2 (Spec.minutes (360000 # 1)) mm /\ String.length mm = 2%nat /\
    Spec.zero_padded 2 (Spec.secs (360000 # 1)) ss /\ String.length ss = 2%nat /\
    Spec.all_digits mmm /\ String.length mmm = 3%nat /\
    format_timestamp 0 = "00:00:00.000".
Proof.
  assert (H64 : Py.is_binary64 (360000 # 1) = true) by (vm_compute; reflexivity).
  assert (H : 0 <= 360000 # 1) by (unfold Qle; simpl; lia).
  assert (Hb : 360000 # 1 < inject_Z (2 ^ 53)) by (vm_compute; reflexivity).
  split; [exact H64|]. split; [exact H|]. split; [exact Hb|].
  exact (format_timestamp_decomposition (360000 # 1) H64 H Hb).
Defined.

(** C2 as the specification words it, for every non-negative float, does
    not hold.  At the double [1e20] the subtraction and the division of
    [//] round: the source prints the hours 27777777777777776, and
    [floor(1e20 / 3600)] is 27777777777777777. *)
Lemma format_timestamp_rounds_large_hours :
  Py.is_binary64 (100000000000000000000 # 1) = true /\
  0 <= 100000000000000000000 # 1 /\
  format_timestamp (100000000000000000000 # 1) = "27777777777777776:46:40.000" /\
  Spec.hours (100000000000000000000 # 1) = 27777777777777777%Z /\
  ~ exists hh mm ss mmm : string,
      format_timestamp (100000000000000000000 # 1)
      = hh +:+ ":" +:+ mm +:+ ":" +:+ ss +:+ "." +:+ mmm /\
      Spec.zero_padded 2 (Spec.hours (100000000000000000000 # 1)) hh /\
      Spec.zero_padded 2 (Spec.minutes (100000000000000000000 # 1)) mm /\
      String.length mm = 2%nat /\
      Spec.zero_padded 2 (Spec.secs (100000000000000000000 # 1)) ss /\
      String.length ss = 2%nat /\
      Spec.all_digits mmm /\ String.length mmm = 3%nat /\
      format_timestamp 0 = "00:00:00.000".
Proof.
  assert (Hfmt : format_timestamp (100000000000000000000 # 1)
                 = "27777777777777776" +:+ ":" +:+ "46:40.000")
    by (vm_compute; reflexivity).
  split; [vm_compute; reflexivity|].
  split; [unfold Qle; simpl; lia|].
  split; [exact Hfmt|].
  split; [vm_compute; reflexivity|].
  intros (hh & mm & ss & mmm & Heq & (Hall & Hval & _) & _).
  rewrite Hfmt in Heq.
  assert (Hhh : "27777777777777776" = hh).
  { eapply digits_before_colon; [|exact Hall | exact Heq].
    vm_compute. repeat split; lia. }
  subst hh. vm_compute in Hval. discriminate Hval.
Qed.

(** C1 (the code departs from it). At 3661.5 the fractional part is one
    half, so the intended millisecond field is 500; the source computes
    it from the integer 1 and returns [01:01:01.000].  The same happens
    at the double nearest to 59.999. *)
Theorem format_timestamp_drops_fraction :
  Spec.millis (7323 # 2) = 500%Z /\
  snd (timestamp_fields (7323 # 2)) = 0%Z /\
  format_timestamp (7323 # 2) = "01:01:01.000" /\
  format_timestamp (7323 # 2) <> "01:01:01.500" /\
  Spec.millis (8444108563831325 # 140737488355328) = 999%Z /\
  format_timestamp (8444108563831325 # 140737488355328) = "00:00:59.000".
Proof.
  split; [vm_compute; reflexivity|].
  split; [vm_compute; reflexivity|].
  split; [vm_compute; reflexivity|].
  split; [|split; vm_compute; reflexivity].
  intros Heq. vm_compute in Heq. discriminate Heq.
Qed.

End FormatTimestampFacts.

(** ** The state and error monad *)

Section MonadFacts.

Lemma bind_inv {A B : Type} (m : M A) (k : A -> M B) (w w' : World) (r : exn + B) :
  bind m k w = (r, w') ->
  (exists e, m w = (inl e, w') /\ r = inl e) \/
  (exists a w1, m w = (inr a, w1) /\ k a w1 = (r, w')).
Proof.
  unfold bind. destruct (m w) as [[e|a] w1]; intros H.
  - left. exists e. now inversion H.
  - right. now exists a, w1.
Qed.

Lemma bind_ok_inv {A B : Type} (m : M A) (k : A -> M B) (w w' : World) (b : B) :
  bind m k w = (inr b, w') ->
  exists a w1, m w = (inr a, w1) /\ k a w1 = (inr b, w').
Proof.
  intros H. destruct (bind_inv _ _ _ _ _ H) as [(e & _ & He)|Hok];
    [discriminate He | exact Hok].
Qed.

Lemma bind_returns {A B : Type} (m : M A) (k : A -> M B) (w w1 : World) (a : A) :
  m w = (inr a, w1) -> bind m k w = k a w1.
Proof. intros H. unfold bind. now rewrite H. Qed.

Lemma bind_raises {A B : Type} (m : M A) (k : A -> M B) (w w1 : World) (e : exn) :
  m w = (inl e, w1) -> bind m k w = (inl e, w1).
Proof. intros H. unfold bind. now rewrite H. Qed.

Lemma extends_refl (w : World) : extends w w.
Proof. split; reflexivity. Qed.

Lemma extends_trans (w1 w2 w3 : World) : extends w1 w2 -> extends w2 w3 -> extends w1 w3.
Proof. intros [Hd He] [Hd' He']. split; etransitivity; eassumption. Qed.

Lemma preserving_ret {A : Type} (a : A) : preserving (ret a).
Proof. intros w r w' H. inversion H. apply extends_refl. Qed.

Lemma preserving_bind {A B : Type} (m : M A) (k : A -> M B) :
  preserving m -> (forall a, preserving (k a)) -> preserving (bind m k).
Proof.
  intros Hm Hk w r w' H.
  destruct (bind_inv _ _ _ _ _ H) as [(e & He & _)|(a & w1 & Ha & Hka)].
  - exact (Hm _ _ _ He).
  - eapply extends_trans; [exact (Hm _ _ _ Ha) | exact (Hk _ _ _ _ Hka)].
Qed.

Lemma preserving_logger_info (msg : string) : preserving (logger_info msg).
Proof. intros w r w' H. inversion H; subst. split; reflexivity. Qed.

End MonadFacts.

(** ** Joining paths *)

Section JoinFacts.

Lemma starts_with_cons (c : ascii) (r : string) :
  Str.starts_with (String c r) "/" = if ascii_dec "/" c then true else false.
Proof.
  unfold Str.starts_with. cbn [String.prefix].
  destruct (ascii_dec "/" c); [destruct r; reflexivity | reflexivity].
Qed.

Lemma starts_with_app (s t : string) :
  s <> "" -> Str.starts_with (s +:+ t) "/" = Str.starts_with s "/".
Proof.
  destruct s as [|c s]; [contradiction|]. intros _.
  now rewrite str_app_cons, !starts_with_cons.
Qed.

Lemma join2_absolute (a b : string) : Str.starts_with b "/" = true -> OsPath.join2 a b = b.
Proof. intros Hb. unfold OsPath.join2. now rewrite Hb. Qed.

Lemma join2_relative (a b : string) :
  a <> "" -> Str.ends_with a "/" = false -> Str.starts_with b "/" = false ->
  OsPath.join2 a b = a +:+ "/" +:+ b.
Proof.
  intros Ha Hend Hb. unfold OsPath.join2. rewrite Hb, Hend.
  destruct (String.eqb_spec a "") as [Heq|_]; [contradiction | reflexivity].
Qed.

(** Joining onto an absolute path gives an absolute path. *)
Lemma join2_absolute_left (a b : string) :
  Str.starts_with a "/" = true -> Str.starts_with (OsPath.join2 a b) "/" = true.
Proof.
  intros Ha. unfold OsPath.join2.
  destruct (Str.starts_with b "/") eqn:Hb; [exact Hb|].
  assert (Hne : a <> "") by (intros ->; discriminate Ha).
  destruct (String.eqb a "" || Str.ends_with a "/"); now rewrite starts_with_app.
Qed.

Lemma ends_with_slash_app (s t : string) :
  (1 <= String.length t)%nat ->
  Str.ends_with (s +:+ t) "/" = Str.ends_with t "/".
Proof.
  intros Ht. induction s as [|a s IH]; [reflexivity|].
  rewrite str_app_cons. cbn [Str.ends_with].
  destruct (String.eqb_spec (String a (s +:+ t)) "/") as [Heq|_]; [|exact IH].
  injection Heq as _ Heq. apply (f_equal String.length) in Heq.
  rewrite str_length_app in Heq. simpl in Heq. lia.
Qed.

(** The join of three relative components, spelled out. *)
Lemma join_three (root folder fn : string) :
  root <> "" -> Str.ends_with root "/" = false ->
  folder <> "" -> Str.starts_with folder "/" = false -> Str.ends_with folder "/" = false ->
  Str.starts_with fn "/" = false ->
  OsPath.join root [folder; fn] = root +:+ "/" +:+ folder +:+ "/" +:+ fn.
Proof.
  intros Hroot Hrend Hfolder Hfstart Hfend Hfn. unfold OsPath.join. cbn [fold_left].
  rewrite (join2_relative root folder) by assumption.
  rewrite join2_relative; [now rewrite !str_app_assoc | | | exact Hfn].
  - destruct root; [contradiction | discriminate].
  - assert (Hlen : (1 <= String.length folder)%nat).
    { destruct folder; [contradiction | simpl; lia]. }
    rewrite ends_with_slash_app by (rewrite str_length_app; lia).
    now rewrite ends_with_slash_app.
Qed.

End JoinFacts.

(** ** The handlers *)

Section ServiceFacts.

Variable HARDCODED_TOKEN : string.
Variable STATIC_FOLDER : string.
Variable model_transcribe : string -> World -> exn + TranscriptionResult.
Variable io_fault : io_op -> World -> outcome.

Local Abbreviation transcribe_try' :=
  (transcribe_try HARDCODED_TOKEN STATIC_FOLDER model_transcribe io_fault).
Local Abbreviation transcribe' :=
  (transcribe HARDCODED_TOKEN STATIC_FOLDER model_transcribe io_fault).

Lemma attempt_inv (op : io_op) (effect : World -> World) (w w' : World) (r : exn + unit) :
  attempt io_fault op effect w = (r, w') ->
  (exists e, raised (io_fault op w) = Some e /\ r = inl e /\ w' = w) \/
  (raised (io_fault op w) = None /\ r = inr tt /\ w' = effect w).
Proof.
  unfold attempt. destruct (raised (io_fault op w)) as [e|]; intros H; inversion H; subst.
  - left. now exists e.
  - now right.
Qed.

Lemma preserving_attempt (op : io_op) (effect : World -> World) :
  (forall w, extends w (effect w)) -> preserving (attempt io_fault op effect).
Proof.
  intros Heff w r w' H.
  destruct (attempt_inv _ _ _ _ _ H) as [(e & _ & _ & ->)|(_ & _ & ->)].
  - apply extends_refl.
  - apply Heff.
Qed.

Lemma preserving_os_makedirs (path : string) : preserving (os_makedirs io_fault path).
Proof.
  intros w r w' H. unfold os_makedirs in H.
  destruct (raised (io_fault (MakeDirs path) w)); inversion H; subst;
    (split; cbn [dirs files]; [|reflexivity]).
  - apply union_subseteq_r.
  - etransitivity; apply union_subseteq_r.
Qed.

Lemma preserving_open_w (path : string) : preserving (open_w io_fault path).
Proof.
  apply preserving_bind; [|intros a; apply preserving_ret].
  apply preserving_attempt. intros w. split; cbn [dirs files]; [reflexivity|].
  rewrite dom_insert_L. apply union_subseteq_r.
Qed.

Lemma preserving_file_write (f data : string) : preserving (file_write io_fault f data).
Proof.
  intros w r w' H. unfold file_write in H.
  destruct (raised (io_fault (Write f data) w)); inversion H; subst;
    (split; cbn [dirs files]; [reflexivity|]);
    rewrite dom_insert_L; apply union_subseteq_r.
Qed.

Lemma preserving_file_close (f : string) : preserving (file_close io_fault f).
Proof.
  intros w r w' H. unfold file_close in H.
  destruct (raised (io_fault (Close f) w)); inversion H; subst.
  - split; cbn [dirs files]; [reflexivity|].
    rewrite dom_insert_L. apply union_subseteq_r.
  - apply extends_refl.
Qed.

Lemma preserving_save (audio_file : FileStorage) (path : string) :
  preserving (save io_fault audio_file path).
Proof.
  unfold save.
  apply preserving_bind; [apply preserving_open_w | intros dst].
  apply preserving_bind; [apply preserving_file_write | intros _].
  apply preserving_file_close.
Qed.

Lemma preserving_engine (file_path : string) :
  preserving (engine model_transcribe file_path).
Proof.
  intros w r w' H. unfold engine in H.
  destruct (model_transcribe file_path w); inversion H; subst; apply extends_refl.
Qed.

Lemma preserving_write_cues (vtt_file : string) (segs : list Segment) :
  preserving (write_cues io_fault vtt_file segs).
Proof.
  induction segs as [|segment rest IH]; simpl.
  - apply preserving_ret.
  - apply preserving_bind; [apply preserving_file_write | intros _; exact IH].
Qed.

Lemma preserving_transcribe_try (request : Request) (now : datetime) :
  preserving (transcribe_try' request now).
Proof.
  unfold transcribe_try. case_bool_decide; [apply preserving_ret|].
  destruct (form_files request !! "audio_file") as [audio_file|]; [|apply preserving_ret].
  repeat first
    [ apply preserving_ret
    | apply preserving_os_makedirs | apply preserving_save
    | apply preserving_logger_info | apply preserving_engine
    | apply preserving_open_w | apply preserving_file_write
    | apply preserving_file_close
    | apply preserving_write_cues
    | apply preserving_bind; [|intros ?] ].
Qed.

(** C5. When the [Authorization] header is absent or is not exactly the
    configured token, [transcribe] answers 401 with the error
    [Invalid token] and the world is the one it started from: no
    directory is made, no file is written and nothing is logged. *)
Theorem transcribe_unauthorized (request : Request) (now : datetime) (w : World) :
  headers request !! "Authorization" ≠ Some HARDCODED_TOKEN ->
  transcribe' request now w = ((jsonify {[ "error" := "Invalid token" ]}, 401), w).
Proof.
  intros Htoken. unfold transcribe, transcribe_try.
  rewrite bool_decide_eq_true_2 by exact Htoken. reflexivity.
Qed.

(** C6. With the right token and no [audio_file] part in the form,
    [transcribe] answers 400 with the error [No audio file provided]
    and leaves the world as it was. *)
Theorem transcribe_no_audio_file (request : Request) (now : datetime) (w : World) :
  headers request !! "Authorization" = Some HARDCODED_TOKEN ->
  form_files request !! "audio_file" = None ->
  transcribe' request now w
  = ((jsonify {[ "error" := "No audio file provided" ]}, 400), w).
Proof.
  intros Htoken Hfile. unfold transcribe, transcribe_try.
  rewrite bool_decide_eq_false_2 by (intros Hne; now apply Hne).
  rewrite Hfile. reflexivity.
Qed.

(** C8. When the body of [transcribe] raises [e] in the world [w'], the
    answer is 500 with the fixed error [Internal server error], whatever
    [e] is; the text of [e] goes to the log only.  The world is [w']
    with that log record added: whatever was on disk when the exception
    was raised stays there, and nothing that was there before the request
    is gone.  Such an exception arises past the two checks of the
    request. *)
Theorem transcribe_internal_error
    (request : Request) (now : datetime) (w w' : World) (e : exn) :
  transcribe_try' request now w = (inl e, w') ->
  transcribe' request now w
  = ((jsonify {[ "error" := "Internal server error" ]}, 500),
     {| dirs := dirs w'; files := files w';
        log := log w' ++ [(ERROR, "Error during transcription: " +:+ exn_str e)] |}) /\
  extends w w' /\
  headers request !! "Authorization" = Some HARDCODED_TOKEN /\
  is_Some (form_files request !! "audio_file").
Proof.
  intros Hraise. split; [|split].
  - unfold transcribe. rewrite Hraise. reflexivity.
  - exact (preserving_transcribe_try request now _ _ _ Hraise).
  - unfold transcribe_try in Hraise.
    case_bool_decide as Htoken; [discriminate Hraise|].
    destruct (form_files request !! "audio_file") as [audio_file|];
      [|discriminate Hraise].
    split; [|eexists; reflexivity].
    destruct (decide (headers request !! "Authorization" = Some HARDCODED_TOKEN))
      as [Heq|Hne]; [exact Heq | contradiction].
Qed.

(** *** The run that ends in 200 *)

(** A call that returned did not meet a fault: only the branch with the
    effect remains. *)
Ltac returned H :=
  apply attempt_inv in H as [(? & _ & ?Hraised & _)|(_ & _ & ->)];
  [discriminate Hraised|].


Lemma os_makedirs_ok (path : string) (u : unit) (w w' : World) :
  os_makedirs io_fault path w = (inr u, w') ->
  w' = {| dirs := {[path]} ∪ (made (io_fault (MakeDirs path) w) ∪ dirs w);
          files := files w; log := log w |}.
Proof.
  unfold os_makedirs. destruct (raised (io_fault (MakeDirs path) w)); intros H.
  - discriminate H.
  - now inversion H.
Qed.

Lemma open_w_ok (path f : string) (w w' : World) :
  open_w io_fault path w = (inr f, w') ->
  f = path /\
  w' = {| dirs := dirs w; files := <[path := ""]> (files w); log := log w |}.
Proof.
  unfold open_w. intros H.
  apply bind_ok_inv in H as (u & w1 & Hstep & Hret).
  returned Hstep.
  inversion Hret; subst. split; reflexivity.
Qed.

Lemma file_write_ok (f data : string) (u : unit) (w w' : World) :
  file_write io_fault f data w = (inr u, w') ->
  w' = {| dirs := dirs w;
          files := <[f := default "" (files w !! f) +:+ data]> (files w);
          log := log w |}.
Proof.
  unfold file_write. destruct (raised (io_fault (Write f data) w)); intros H.
  - discriminate H.
  - now inversion H.
Qed.

Lemma file_close_ok (f : string) (u : unit) (w w' : World) :
  file_close io_fault f w = (inr u, w') -> w' = w.
Proof.
  unfold file_close. destruct (raised (io_fault (Close f) w)); intros H.
  - discriminate H.
  - now inversion H.
Qed.

(** A [save] that returns has put the stream at the path. *)
Lemma save_ok (audio_file : FileStorage) (path : string) (u : unit) (w w' : World) :
  save io_fault audio_file path w = (inr u, w') ->
  w' = {| dirs := dirs w; files := <[path := stream audio_file]> (files w);
          log := log w |}.
Proof.
  unfold save. intros H.
  apply bind_ok_inv in H as (dst & w1 & Hopen & H).
  apply open_w_ok in Hopen as [-> ->].
  apply bind_ok_inv in H as (u2 & w2 & Hwrite & Hclose).
  apply file_write_ok in Hwrite. cbn [dirs files log] in Hwrite.
  rewrite lookup_insert_eq, insert_insert_eq in Hwrite. cbn [default] in Hwrite.
  rewrite str_app_nil_l in Hwrite. subst w2.
  now apply file_close_ok in Hclose.
Qed.

(** The loop appends the cue blocks to the open file, in order, and
    touches nothing else. *)
Lemma write_cues_ok (f : string) (segs : list Segment) (u : unit) (w w' : World) (c : string) :
  write_cues io_fault f segs w = (inr u, w') ->
  files w !! f = Some c ->
  dirs w' = dirs w /\ log w' = log w /\
  files w' = <[f := c +:+ Spec.cue_blocks segs]> (files w).
Proof.
  revert w c. induction segs as [|segment rest IH]; intros w c Hrun Hc.
  - inversion Hrun; subst. split; [reflexivity|]. split; [reflexivity|].
    unfold Spec.cue_blocks. simpl. rewrite str_app_nil_r. symmetry. now apply insert_id.
  - simpl in Hrun. apply bind_ok_inv in Hrun as (u1 & w1 & Hwrite & Hrest).
    apply file_write_ok in Hwrite. rewrite Hc in Hwrite. simpl in Hwrite. subst w1.
    specialize (IH _ (c +:+ Spec.cue_block segment) Hrest).
    simpl in IH. rewrite lookup_insert_eq in IH. specialize (IH eq_refl).
    destruct IH as (Hd & Hl & Hf). split; [exact Hd|]. split; [exact Hl|].
    rewrite Hf, insert_insert_eq. unfold Spec.cue_blocks. simpl.
    now rewrite str_app_assoc.
Qed.

(** A run of the [try] block that returns went through every step:
    the answer and the final world are those of the source read top to
    bottom. *)
Lemma transcribe_try_returns
    (request : Request) (now : datetime) (w w' : World) (response : Response) :
  transcribe_try' request now w = (inr response, w') ->
  snd response = 200 ->
  exists (audio_file : FileStorage) (result : TranscriptionResult),
    let folder_path :=
      OsPath.join STATIC_FOLDER [folder_name (filename audio_file) now] in
    let file_path := OsPath.join folder_path [filename audio_file] in
    let text_file_path := OsPath.join folder_path [text_filename (filename audio_file)] in
    let vtt_file_path := OsPath.join folder_path [vtt_filename (filename audio_file)] in
    let started := (INFO, "Transcribing audio file: " +:+ file_path) in
    let completed := (INFO, "Transcription completed for file: " +:+ file_path) in
    let dirs_made := {[folder_path]} ∪ (made (io_fault (MakeDirs folder_path) w) ∪ dirs w) in
    headers request !! "Authorization" = Some HARDCODED_TOKEN /\
    form_files request !! "audio_file" = Some audio_file /\
    model_transcribe file_path
      {| dirs := dirs_made;
         files := <[file_path := stream audio_file]> (files w);
         log := log w ++ [started] |} = inr result /\
    response = (jsonify {[ "transcribed_text" := text result;
                           "text_file_path" := text_file_path;
                           "vtt_file_path" := vtt_file_path ]}, 200) /\
    dirs w' = dirs_made /\
    files w' = <[vtt_file_path := Spec.caption_document (segments result)]>
                 (<[text_file_path := text result]>
                    (<[file_path := stream audio_file]> (files w))) /\
    log w' = (log w ++ [started]) ++ [completed].
Proof.
  intros Hrun Hstatus. unfold transcribe_try in Hrun.
  case_bool_decide as Htoken.
  { inversion Hrun; subst. discriminate Hstatus. }
  destruct (form_files request !! "audio_file") as [audio_file|] eqn:Hfile.
  2:{ inversion Hrun; subst. discriminate Hstatus. }
  exists audio_file.
  apply bind_ok_inv in Hrun as (u1 & w1 & Hmk & Hrun).
  apply os_makedirs_ok in Hmk. subst w1.
  apply bind_ok_inv in Hrun as (u2 & w2 & Hsave & Hrun).
  apply save_ok in Hsave. cbn [dirs files log] in Hsave. subst w2.
  apply bind_ok_inv in Hrun as (u3 & w3 & Hlog & Hrun).
  inversion Hlog; subst u3 w3; clear Hlog.
  apply bind_ok_inv in Hrun as (result & w4 & Hengine & Hrun).
  unfold engine in Hengine.
  match type of Hengine with
  | context [model_transcribe ?p ?w0] =>
      destruct (model_transcribe p w0) as [e|result'] eqn:Hmodel
  end; [discriminate Hengine|].
  inversion Hengine; subst result' w4; clear Hengine.
  exists result. cbv zeta.
  apply bind_ok_inv in Hrun as (u5 & w5 & Htext & Hrun).
  apply bind_ok_inv in Htext as (text_file & w5' & Hopen & Hwrite).
  apply open_w_ok in Hopen as [-> ->].
  apply bind_ok_inv in Hwrite as (u5' & w5'' & Hwrite & Hclose).
  apply file_close_ok in Hclose. subst w5''.
  apply file_write_ok in Hwrite. simpl in Hwrite.
  rewrite lookup_insert_eq, insert_insert_eq in Hwrite. simpl in Hwrite. subst w5.
  apply bind_ok_inv in Hrun as (u6 & w6 & Hvtt & Hrun).
  apply bind_ok_inv in Hvtt as (vtt_file & w6' & Hopen & Hwrite).
  apply open_w_ok in Hopen as [-> ->].
  apply bind_ok_inv in Hwrite as (u7 & w7 & Hheader & Hcues).
  apply file_write_ok in Hheader. simpl in Hheader.
  rewrite lookup_insert_eq, insert_insert_eq in Hheader. simpl in Hheader. subst w7.
  apply bind_ok_inv in Hcues as (u7' & w7' & Hcues & Hclose).
  apply file_close_ok in Hclose. subst w7'.
  eapply write_cues_ok in Hcues; [|simpl; apply lookup_insert_eq].
  simpl in Hcues. destruct Hcues as (Hdirs & Hlog & Hfiles).
  rewrite insert_insert_eq in Hfiles.
  apply bind_ok_inv in Hrun as (u8 & w8 & Hdone & Hrun).
  inversion Hdone; subst u8 w8; clear Hdone.
  inversion Hrun; subst response w'; clear Hrun. simpl.
  split.
  { destruct (decide (headers request !! "Authorization" = Some HARDCODED_TOKEN))
      as [Heq|Hne]; [exact Heq | contradiction]. }
  split; [reflexivity|].
  split; [exact Hmodel|].
  split; [reflexivity|].
  split; [exact Hdirs|].
  split; [|now rewrite Hlog].
  rewrite Hfiles. unfold Spec.caption_document. now rewrite !str_app_assoc.
Qed.

Lemma transcribe_200_inv
    (request : Request) (now : datetime) (w w' : World) (body : Body) :
  transcribe' request now w = ((body, 200), w') ->
  transcribe_try' request now w = (inr (body, 200), w').
Proof.
  unfold transcribe.
  destruct (transcribe_try' request now w) as [[e|response] w1]; intros H.
  - inversion H.
  - now inversion H.
Qed.

(** The transcript and the captions never share a path. *)
Lemma join2_same_prefix (folder stem : string) :
  exists pre : string,
    OsPath.join2 folder (stem +:+ "_transcribed.txt") = pre +:+ stem +:+ "_transcribed.txt" /\
    OsPath.join2 folder (stem +:+ ".vtt") = pre +:+ stem +:+ ".vtt".
Proof.
  assert (Hstart : Str.starts_with (stem +:+ "_transcribed.txt") "/"
                   = Str.starts_with (stem +:+ ".vtt") "/").
  { destruct stem as [|c stem]; [reflexivity|].
    rewrite !str_app_cons. unfold Str.starts_with. cbn [String.prefix].
    destruct (ascii_dec "/" c); [|reflexivity].
    destruct stem; reflexivity. }
  unfold OsPath.join2. rewrite Hstart.
  destruct (Str.starts_with (stem +:+ ".vtt") "/").
  - exists "". split; reflexivity.
  - destruct (String.eqb folder "" || Str.ends_with folder "/").
    + exists folder. split; reflexivity.
    + exists (folder +:+ "/"). rewrite !str_app_assoc. split; reflexivity.
Qed.

Lemma text_path_not_vtt_path (folder audio_filename : string) :
  OsPath.join folder [text_filename audio_filename]
  ≠ OsPath.join folder [vtt_filename audio_filename].
Proof.
  unfold OsPath.join, text_filename, vtt_filename. simpl.
  destruct (join2_same_prefix folder (fst (OsPath.splitext audio_filename)))
    as (pre & -> & ->).
  intros Heq. apply String.app_inj in Heq. apply String.app_inj in Heq.
  discriminate Heq.
Qed.

(** C4. When [transcribe] answers 200, the engine returned some result
    for the saved audio; the transcript file then holds exactly the text
    of that result, and so does the field [transcribed_text] of the
    answer. *)
Theorem transcript_verbatim
    (request : Request) (now : datetime) (w w' : World) (body : Body) :
  transcribe' request now w = ((body, 200), w') ->
  exists (audio_file : FileStorage) (result : TranscriptionResult) (obj : gmap string string),
    let folder_path :=
      OsPath.join STATIC_FOLDER [folder_name (filename audio_file) now] in
    let file_path := OsPath.join folder_path [filename audio_file] in
    let text_file_path := OsPath.join folder_path [text_filename (filename audio_file)] in
    form_files request !! "audio_file" = Some audio_file /\
    (exists w_engine, model_transcribe file_path w_engine = inr result) /\
    body = Json obj /\
    obj !! "transcribed_text" = Some (text result) /\
    obj !! "text_file_path" = Some text_file_path /\
    files w' !! text_file_path = Some (text result).
Proof.
  intros Hrun. apply transcribe_200_inv in Hrun.
  apply transcribe_try_returns in Hrun; [|reflexivity].
  destruct Hrun as (audio_file & result & _ & Hfile & Hmodel & Hresp & _ & Hfiles & _).
  exists audio_file, result. eexists. cbv zeta.
  split; [exact Hfile|].
  split; [eexists; exact Hmodel|].
  split; [now inversion Hresp|].
  split; [apply lookup_insert_eq|].
  split; [rewrite lookup_insert_ne by discriminate; apply lookup_insert_eq|].
  rewrite Hfiles.
  rewrite lookup_insert_ne by (apply not_eq_sym, text_path_not_vtt_path).
  apply lookup_insert_eq.
Qed.

(** C3. When [transcribe] answers 200, the caption file holds the header
    [WEBVTT] and an empty line, then one cue block for each segment of the
    engine's result in the order of the segments; a cue block is the line
    [start --> end] with both times rendered by [format_timestamp], the
    line of the segment's text, and an empty line. *)
Theorem caption_document_written
    (request : Request) (now : datetime) (w w' : World) (body : Body) :
  transcribe' request now w = ((body, 200), w') ->
  exists (audio_file : FileStorage) (result : TranscriptionResult) (obj : gmap string string),
    let folder_path :=
      OsPath.join STATIC_FOLDER [folder_name (filename audio_file) now] in
    let file_path := OsPath.join folder_path [filename audio_file] in
    let vtt_file_path := OsPath.join folder_path [vtt_filename (filename audio_file)] in
    form_files request !! "audio_file" = Some audio_file /\
    (exists w_engine, model_transcribe file_path w_engine = inr result) /\
    body = Json obj /\
    obj !! "vtt_file_path" = Some vtt_file_path /\
    files w' !! vtt_file_path = Some (Spec.caption_document (segments result)) /\
    Spec.caption_document (segments result)
    = "WEBVTT" +:+ Str.nl +:+ Str.nl
        +:+ fold_right String.append "" (map Spec.cue_block (segments result)) /\
    length (map Spec.cue_block (segments result)) = length (segments result).
Proof.
  intros Hrun. apply transcribe_200_inv in Hrun.
  apply transcribe_try_returns in Hrun; [|reflexivity].
  destruct Hrun as (audio_file & result & _ & Hfile & Hmodel & Hresp & _ & Hfiles & _).
  exists audio_file, result. eexists. cbv zeta.
  split; [exact Hfile|].
  split; [eexists; exact Hmodel|].
  split; [now inversion Hresp|].
  split; [do 2 (rewrite lookup_insert_ne by discriminate); apply lookup_singleton_eq|].
  split; [rewrite Hfiles; apply lookup_insert_eq|].
  split; [reflexivity | apply length_map].
Qed.

(** Without faults and with an engine that returns, the request is
    served: every segment sequence does get its caption document. *)
Lemma transcribe_succeeds
    (request : Request) (now : datetime) (w : World)
    (audio_file : FileStorage) (result : TranscriptionResult) :
  headers request !! "Authorization" = Some HARDCODED_TOKEN ->
  form_files request !! "audio_file" = Some audio_file ->
  (forall op w0, raised (io_fault op w0) = None) ->
  (forall p w0, model_transcribe p w0 = inr result) ->
  exists body w',
    transcribe' request now w = ((body, 200), w') /\
    files w' !! OsPath.join (OsPath.join STATIC_FOLDER [folder_name (filename audio_file) now])
                  [vtt_filename (filename audio_file)]
    = Some (Spec.caption_document (segments result)).
Proof.
  intros Htoken Hfile Hnofault Hengine.
  assert (Hcues : forall f segs w0, exists w1,
             write_cues io_fault f segs w0 = (inr tt, w1)).
  { intros f segs. induction segs as [|segment rest IH]; intros w0.
    - eexists. reflexivity.
    - simpl. unfold bind, file_write. rewrite Hnofault. apply IH. }
  assert (Hret : exists body w', transcribe' request now w = ((body, 200), w')).
  { unfold transcribe, transcribe_try.
    rewrite bool_decide_eq_false_2 by (intros Hne; now apply Hne).
    rewrite Hfile.
    repeat first
      [ rewrite Hnofault | rewrite Hengine | progress cbv beta iota
      | progress unfold bind, os_makedirs, save, open_w, file_write, file_close,
                        attempt, engine, logger_info, ret ].
    match goal with
    | |- context [write_cues io_fault ?f ?segs ?w0] =>
        destruct (Hcues f segs w0) as [w1 ->]
    end.
    rewrite Hnofault. eexists. eexists. reflexivity. }
  destruct Hret as (body & w' & Hrun). exists body, w'. split; [exact Hrun|].
  apply transcribe_200_inv in Hrun.
  apply transcribe_try_returns in Hrun; [|reflexivity].
  destruct Hrun as (af & result' & _ & Hfile' & Hmodel & _ & _ & Hfiles & _).
  rewrite Hfile in Hfile'. injection Hfile' as <-.
  rewrite Hengine in Hmodel. injection Hmodel as <-.
  rewrite Hfiles. apply lookup_insert_eq.
Qed.

End ServiceFacts.

(** ** The download handlers *)

Section DownloadFacts.

Variable STATIC_FOLDER : string.
Variable ROOT_PATH : string.

(** Where [send_file] looks for a path. *)
Lemma send_file_resolves (path : string) :
  ROOT_PATH <> "" -> Str.ends_with ROOT_PATH "/" = false ->
  OsPath.join ROOT_PATH [path]
  = if Str.starts_with path "/" then path else ROOT_PATH +:+ "/" +:+ path.
Proof.
  intros Hroot Hend. unfold OsPath.join. cbn [fold_left].
  destruct (Str.starts_with path "/") eqn:Hpath.
  - now apply join2_absolute.
  - now apply join2_relative.
Qed.


End DownloadFacts.

Section DownloadOfDirectory.


End DownloadOfDirectory.

(** ** Paths and names *)

Section PathFacts.

Lemma has_char_app (c : ascii) (s t : string) :
  Str.has_char c (s +:+ t) = Str.has_char c s || Str.has_char c t.
Proof.
  induction s as [|a s IH]; [reflexivity|].
  rewrite str_app_cons. simpl. rewrite IH. now rewrite orb_assoc.
Qed.

Lemma rfind_absent (c : ascii) (s : string) : Str.has_char c s = false -> Str.rfind s c = -1.
Proof.
  induction s as [|a s IH]; [reflexivity|]. simpl. intros H.
  apply orb_false_iff in H as [Ha Hs]. rewrite (IH Hs), Ha. reflexivity.
Qed.

Lemma rfind_bounds (c : ascii) (s : string) :
  -1 <= Str.rfind s c < Z.of_nat (String.length s).
Proof.
  induction s as [|a s IH]; [simpl; lia|].
  cbn [Str.rfind String.length]. cbv zeta.
  destruct (0 <=? Str.rfind s c) eqn:Hr; [apply Z.leb_le in Hr; lia|].
  destruct (Ascii.eqb a c); lia.
Qed.

Lemma rfind_app_absent (c : ascii) (s t : string) :
  Str.has_char c t = false -> Str.rfind (s +:+ t) c = Str.rfind s c.
Proof.
  intros Ht. induction s as [|a s IH]; [now apply rfind_absent|].
  rewrite str_app_cons. cbn [Str.rfind]. now rewrite IH.
Qed.

Lemma rfind_app_found (c : ascii) (s t : string) :
  Str.has_char c t = false ->
  Str.rfind (s +:+ String c t) c = Z.of_nat (String.length s).
Proof.
  intros Ht. induction s as [|a s IH].
  - rewrite str_app_nil_l. cbn [Str.rfind]. rewrite (rfind_absent _ _ Ht).
    now rewrite Ascii.eqb_refl.
  - rewrite str_app_cons. cbn [Str.rfind String.length]. rewrite IH. cbv zeta.
    destruct (0 <=? Z.of_nat (String.length s)) eqn:Hle; [lia|].
    apply Z.leb_gt in Hle. lia.
Qed.

Lemma substring_app_prefix (s t : string) :
  String.substring 0 (String.length s) (s +:+ t) = s.
Proof.
  induction s as [|a s IH]; [destruct t; reflexivity|].
  rewrite str_app_cons. simpl. now rewrite IH.
Qed.

Lemma substring_char_at (pre : string) (c : ascii) (t : string) :
  String.substring (String.length pre) 1 (pre +:+ String c t) = String c "".
Proof.
  induction pre as [|a pre IH].
  - rewrite str_app_nil_l. simpl. destruct t; reflexivity.
  - rewrite str_app_cons. simpl. exact IH.
Qed.

(** The loop stops at the first character that is not a dot. *)
Lemma splitext_scan_found (p : string) (dotIndex i : nat) :
  forall count filenameIndex : nat,
    (filenameIndex <= i < dotIndex)%nat ->
    count = (dotIndex - filenameIndex)%nat ->
    String.eqb (Str.slice p i (i + 1)) "." = false ->
    OsPath.splitext_scan count p filenameIndex dotIndex
    = (Str.slice p 0 dotIndex, Str.slice_from p dotIndex).
Proof.
  induction count as [|count IH]; intros filenameIndex Hi Hcount Hchar; [lia|].
  cbn [OsPath.splitext_scan].
  destruct (String.eqb (Str.slice p filenameIndex (filenameIndex + 1)) ".") eqn:Hcur;
    [|reflexivity].
  cbn [negb]. apply IH; [|lia|exact Hchar].
  destruct (Nat.eq_dec filenameIndex i) as [->|Hne]; [congruence | lia].
Qed.

Lemma last_component_split (s : string) :
  exists pre : string,
    s = pre +:+ Spec.last_component s /\
    Str.has_char "/" (Spec.last_component s) = false.
Proof.
  induction s as [|a s IH]; [exists ""; split; reflexivity|].
  cbn [Spec.last_component].
  destruct (Str.has_char "/" (String a s)) eqn:Hslash.
  - destruct IH as (pre & Hpre & Hno). exists (String a pre).
    rewrite str_app_cons. now rewrite <- Hpre.
  - exists "". split; [reflexivity | exact Hslash].
Qed.

Lemma not_all_dots_split (s : string) :
  Spec.all_dots s = false ->
  exists (u : string) (c : ascii) (v : string),
    s = u +:+ String c v /\ Ascii.eqb c "." = false.
Proof.
  induction s as [|a s IH]; [discriminate|]. simpl. intros H.
  destruct (Ascii.eqb a ".") eqn:Ha.
  - simpl in H. destruct (IH H) as (u & c & v & -> & Hc).
    exists (String a u), c, v. split; [reflexivity | exact Hc].
  - exists "", a, s. split; [reflexivity | exact Ha].
Qed.

(** [splitext] takes a plain extension off a stem that names a file. *)
Lemma splitext_stem_ext (stem ext : string) :
  Spec.has_name stem -> Spec.plain_ext ext ->
  OsPath.splitext (stem +:+ "." +:+ ext) = (stem, "." +:+ ext).
Proof.
  intros Hname [Hdot Hslash].
  destruct (last_component_split stem) as (pre & Hstem & Hno).
  destruct (not_all_dots_split _ Hname) as (u & c & v & Hlast & Hc).
  rewrite Hlast in Hstem, Hno.
  assert (Hno' : Str.has_char "/" ("." +:+ ext) = false).
  { rewrite has_char_app, Hslash. reflexivity. }
  assert (Hsep : Str.rfind (stem +:+ "." +:+ ext) "/" = Str.rfind pre "/").
  { rewrite (rfind_app_absent _ stem _ Hno'). rewrite Hstem.
    now apply rfind_app_absent. }
  assert (Hdotidx : Str.rfind (stem +:+ "." +:+ ext) "." = Z.of_nat (String.length stem)).
  { change ("." +:+ ext) with (String "." ext). now apply rfind_app_found. }
  pose proof (rfind_bounds "/" pre) as Hb.
  assert (Hlen : String.length stem = (String.length pre + S (String.length (u +:+ v)))%nat).
  { rewrite Hstem, !str_length_app. simpl. lia. }
  unfold OsPath.splitext. rewrite Hsep, Hdotidx.
  assert (Hlt : (Str.rfind pre "/" <? Z.of_nat (String.length stem)) = true)
    by (apply Z.ltb_lt; lia).
  rewrite Hlt.
  rewrite (splitext_scan_found _ _ (String.length (pre +:+ u))).
  - rewrite Nat2Z.id. unfold Str.slice, Str.slice_from.
    rewrite Nat.sub_0_r, substring_app_prefix. f_equal.
    rewrite str_length_app.
    replace (String.length stem + String.length ("." +:+ ext) - String.length stem)%nat
      with (String.length ("." +:+ ext)) by lia.
    clear. induction stem as [|a stem IH]; [|rewrite str_app_cons; exact IH].
    rewrite str_app_nil_l.
    rewrite <- (str_app_nil_r ("." +:+ ext)) at 2. apply substring_app_prefix.
  - rewrite Nat2Z.id, str_length_app. rewrite str_length_app in Hlen. lia.
  - rewrite !Nat2Z.id. lia.
  - unfold Str.slice.
    replace (String.length (pre +:+ u) + 1 - String.length (pre +:+ u))%nat with 1%nat by lia.
    rewrite Hstem. rewrite <- (str_app_assoc pre u), (str_app_assoc (pre +:+ u)).
    rewrite str_app_cons, substring_char_at.
    destruct (String.eqb_spec (String c "") ".") as [Heq|Hne]; [|reflexivity].
    injection Heq as ->. discriminate Hc.
Qed.

Lemma splitext_no_dot (p : string) : Str.has_char "." p = false -> OsPath.splitext p = (p, "").
Proof.
  intros Hdot. unfold OsPath.splitext. rewrite (rfind_absent _ _ Hdot).
  pose proof (rfind_bounds "/" p) as Hb.
  destruct (Str.rfind p "/" <? -1) eqn:Hlt; [apply Z.ltb_lt in Hlt; lia | reflexivity].
Qed.

Lemma rfind_neg_absent (c : ascii) (s : string) :
  Str.rfind s c < 0 -> Str.has_char c s = false.
Proof.
  induction s as [|a s IH]; [reflexivity|].
  cbn [Str.rfind Str.has_char]. cbv zeta.
  destruct (0 <=? Str.rfind s c) eqn:Hr.
  - apply Z.leb_le in Hr. lia.
  - apply Z.leb_gt in Hr. destruct (Ascii.eqb a c); [lia|].
    intros _. now apply IH.
Qed.

Lemma rfind_app_right (c : ascii) (s t : string) :
  0 <= Str.rfind t c ->
  Str.rfind (s +:+ t) c = Z.of_nat (String.length s) + Str.rfind t c.
Proof.
  intros Ht. induction s as [|a s IH]; [rewrite str_app_nil_l; simpl; lia|].
  rewrite str_app_cons. cbn [Str.rfind String.length]. rewrite IH. cbv zeta.
  destruct (0 <=? Z.of_nat (String.length s) + Str.rfind t c) eqn:Hle; [lia|].
  apply Z.leb_gt in Hle. lia.
Qed.

(** A found index splits the string at the last occurrence. *)
Lemma rfind_found_split (c : ascii) (s : string) :
  0 <= Str.rfind s c ->
  exists pre post : string,
    s = pre +:+ String c post /\
    Z.of_nat (String.length pre) = Str.rfind s c /\
    Str.has_char c post = false.
Proof.
  induction s as [|a s IH]; [simpl; lia|].
  cbn [Str.rfind]. cbv zeta.
  destruct (0 <=? Str.rfind s c) eqn:Hr.
  - apply Z.leb_le in Hr. intros _.
    destruct (IH Hr) as (pre & post & Hs & Hlen & Hpost).
    exists (String a pre), post. rewrite str_app_cons, <- Hs.
    split; [reflexivity|]. split; [simpl String.length; lia | exact Hpost].
  - apply Z.leb_gt in Hr. destruct (Ascii.eqb_spec a c) as [->|Hne]; [|lia].
    intros _. exists "", s. split; [reflexivity|]. split; [reflexivity|].
    now apply rfind_neg_absent.
Qed.

Lemma substring_full (s : string) : String.substring 0 (String.length s) s = s.
Proof. induction s as [|a s IH]; [reflexivity|]. simpl. now rewrite IH. Qed.

Lemma slice_from_app (s t : string) : Str.slice_from (s +:+ t) (String.length s) = t.
Proof.
  unfold Str.slice_from. rewrite str_length_app.
  replace (String.length s + String.length t - String.length s)%nat
    with (String.length t) by lia.
  induction s as [|a s IH]; [apply substring_full|].
  rewrite str_app_cons. exact IH.
Qed.

Lemma splitext_scan_cases (p : string) (dotIndex : nat) :
  forall count filenameIndex : nat,
    OsPath.splitext_scan count p filenameIndex dotIndex = (p, "") \/
    OsPath.splitext_scan count p filenameIndex dotIndex
    = (Str.slice p 0 dotIndex, Str.slice_from p dotIndex).
Proof.
  induction count as [|count IH]; intros filenameIndex; [now left|].
  cbn [OsPath.splitext_scan].
  destruct (negb (String.eqb (Str.slice p filenameIndex (filenameIndex + 1)) "."));
    [now right | apply IH].
Qed.

(** Every path is its root followed by its extension, and the extension
    is empty or a dot and a plain extension. *)
Lemma splitext_decompose (p : string) :
  exists stem ext : string,
    OsPath.splitext p = (stem, ext) /\ p = stem +:+ ext /\
    (ext = "" \/ exists e : string, ext = "." +:+ e /\ Spec.plain_ext e).
Proof.
  unfold OsPath.splitext.
  destruct (Str.rfind p "/" <? Str.rfind p ".") eqn:Hlt.
  2:{ exists p, "". rewrite str_app_nil_r. split; [reflexivity|]. split; [reflexivity | now left]. }
  apply Z.ltb_lt in Hlt. pose proof (rfind_bounds "/" p) as Hb.
  destruct (rfind_found_split "." p) as (pre & post & Hp & Hlen & Hdot); [lia|].
  match goal with
  | |- context [OsPath.splitext_scan ?n p ?fi ?di] =>
      destruct (splitext_scan_cases p di n fi) as [-> | ->]
  end.
  { exists p, "". rewrite str_app_nil_r. split; [reflexivity|]. split; [reflexivity | now left]. }
  rewrite <- Hlen, Nat2Z.id.
  exists pre, (String "." post).
  assert (Hroot : Str.slice p 0 (String.length pre) = pre).
  { unfold Str.slice. rewrite Nat.sub_0_r. rewrite Hp at 1. apply substring_app_prefix. }
  assert (Hext : Str.slice_from p (String.length pre) = String "." post).
  { rewrite Hp at 1. apply slice_from_app. }
  rewrite Hroot, Hext. split; [reflexivity|]. split; [exact Hp|].
  right. exists post. split; [reflexivity|]. split; [exact Hdot|].
  destruct (Str.has_char "/" post) eqn:Hslash; [|reflexivity].
  exfalso.
  assert (Hpos : 0 <= Str.rfind (String "." post) "/").
  { destruct (Z_lt_ge_dec (Str.rfind (String "." post) "/") 0) as [Hneg|Hge]; [|lia].
    apply rfind_neg_absent in Hneg. simpl in Hneg. rewrite Hslash in Hneg. discriminate Hneg. }
  pose proof (rfind_app_right "/" pre _ Hpos) as Hright.
  rewrite <- Hp in Hright. lia.
Qed.

End PathFacts.

Section LayoutFacts.

Lemma strftime_fields (t : datetime) :
  strftime t "%Y%m%d_%H%M%S"
  = Py.str_of_nonneg (year t) +:+ Py.format_int_zero 2 (month t)
    +:+ Py.format_int_zero 2 (day t) +:+ "_"
    +:+ Py.format_int_zero 2 (hour t) +:+ Py.format_int_zero 2 (minute t)
    +:+ Py.format_int_zero 2 (second t).
Proof.
  cbn [strftime]. unfold strftime_directive.
  cbn [Ascii.eqb Bool.eqb]. now rewrite str_app_nil_r.
Qed.

Lemma strftime_same_second (t1 t2 : datetime) :
  Spec.same_second t1 t2 ->
  strftime t1 "%Y%m%d_%H%M%S" = strftime t2 "%Y%m%d_%H%M%S".
Proof.
  intros (Hy & Hmo & Hd & Hh & Hmi & Hs). rewrite !strftime_fields.
  now rewrite Hy, Hmo, Hd, Hh, Hmi, Hs.
Qed.

(** Up to three digits stand for a number below one thousand. *)
Lemma digits_below_1000 (s : string) :
  Spec.all_digits s -> (String.length s <= 3)%nat -> Py.decimal_value s < 1000.
Proof.
  destruct s as [|a [|b [|c [|d s]]]]; unfold Py.decimal_value; simpl;
    unfold Py.digit_value, Spec.is_digit; intros Hall Hlen; try lia.
Qed.

(** From the year 1000 on the year has its four digits without padding. *)
Lemma year_field (y : Z) :
  1000 <= y <= 9999 -> Py.str_of_nonneg y = Py.format_int_zero 4 y.
Proof.
  intros Hy. unfold Py.format_int_zero.
  assert (Hge : (y <? 0) = false) by (apply Z.ltb_ge; lia). rewrite Hge.
  destruct (str_of_nonneg_numeral y) as (Hall & Hval & _ & _ & Hwidth); [lia|].
  set (ds := Py.str_of_nonneg y) in *.
  assert (Hlong : (3 < String.length ds)%nat).
  { destruct (le_lt_dec (String.length ds) 3) as [Hshort|Hok]; [|exact Hok].
    pose proof (digits_below_1000 ds Hall Hshort). lia. }
  unfold Str.zero_fill.
  replace (4 - String.length ds)%nat with 0%nat; [reflexivity|].
  specialize (Hwidth 4%nat). simpl in Hwidth. lia.
Qed.

Lemma strftime_stamp (t : datetime) :
  1000 <= year t <= 9999 -> strftime t "%Y%m%d_%H%M%S" = Spec.stamp t.
Proof.
  intros Hy. rewrite strftime_fields. unfold Spec.stamp. now rewrite year_field.
Qed.

Lemma length_stamp (t : datetime) : datetime_valid t -> String.length (Spec.stamp t) = 15%nat.
Proof.
  intros (Hy & Hmo & Hd & Hh & Hmi & Hs & _). unfold Spec.stamp.
  rewrite !str_length_app.
  rewrite (format_int_zero_length 4), !(format_int_zero_length 2);
    simpl; lia.
Qed.

Lemma stamp_same_second (t1 t2 : datetime) :
  Spec.same_second t1 t2 -> Spec.stamp t1 = Spec.stamp t2.
Proof.
  intros (Hy & Hmo & Hd & Hh & Hmi & Hs). unfold Spec.stamp.
  now rewrite Hy, Hmo, Hd, Hh, Hmi, Hs.
Qed.

(** C7. For every upload name [f1] and valid clock reading [t1] from the
    year 1000 on, with [stem] the root that [os.path.splitext] gives:
    [f1] is [stem] followed by nothing or by a dot and a plain extension
    (and [stem] is [s] whenever [f1] is [s.e] for a naming stem [s] and a
    plain extension [e]); the directory name is [stem], an underscore and
    the fifteen characters [YYYYMMDD_HHMMSS] of [t1]; the transcript is
    named [stem_transcribed.txt] and the captions [stem.vtt].  A name with
    the same stem and a reading within the same second give the same three
    names. *)
Theorem storage_location_names (f1 f2 : string) (t1 t2 : datetime) :
  datetime_valid t1 -> 1000 <= year t1 -> Spec.same_second t1 t2 ->
  fst (OsPath.splitext f1) = fst (OsPath.splitext f2) ->
  let stem := fst (OsPath.splitext f1) in
  (exists ext : string,
     f1 = stem +:+ ext /\
     (ext = "" \/ exists e : string, ext = "." +:+ e /\ Spec.plain_ext e)) /\
  (forall s e : string,
     Spec.has_name s -> Spec.plain_ext e -> f1 = s +:+ "." +:+ e -> stem = s) /\
  folder_name f1 t1 = stem +:+ "_" +:+ Spec.stamp t1 /\
  String.length (Spec.stamp t1) = 15%nat /\
  text_filename f1 = stem +:+ "_transcribed.txt" /\
  vtt_filename f1 = stem +:+ ".vtt" /\
  folder_name f2 t2 = folder_name f1 t1 /\
  text_filename f2 = text_filename f1 /\
  vtt_filename f2 = vtt_filename f1.
Proof.
  intros Hvalid Hyear Hsame Hstem. cbv zeta.
  assert (Hy1 : 1000 <= year t1 <= 9999) by (destruct Hvalid as (Hy & _); lia).
  split.
  { destruct (splitext_decompose f1) as (stem & ext & Hsplit & Hf1 & Hext).
    rewrite Hsplit. exists ext. split; [exact Hf1 | exact Hext]. }
  split.
  { intros s e Hname Hplain ->. now rewrite splitext_stem_ext. }
  unfold folder_name, text_filename, vtt_filename.
  rewrite <- (strftime_same_second t1 t2 Hsame), (strftime_stamp t1 Hy1), <- Hstem.
  repeat split; try reflexivity.
  now apply length_stamp.
Qed.

End LayoutFacts.

(** ** The sample request, run *)

Section SampleRuns.

Lemma sample_run_served :
  transcribe Sample.token Sample.static_folder Sample.engine_ok Sample.no_fault
    Sample.request Sample.now Sample.world
  = ((Sample.body_served, 200), Sample.world_served).
Proof. vm_compute. reflexivity. Qed.

Lemma sample_run_disk_full :
  transcribe_try Sample.token Sample.static_folder Sample.engine_ok Sample.disk_full
    Sample.request Sample.now Sample.world
  = (inl (OSError "[Errno 28] No space left on device"), Sample.world_disk_full).
Proof. vm_compute. reflexivity. Qed.

End SampleRuns.

(** ** The theorems at the sample request *)

Section SampleWitnesses.

Local Abbreviation run_transcribe faults request :=
  (transcribe Sample.token Sample.static_folder Sample.engine_ok faults
     request Sample.now Sample.world).

Lemma transcribe_unauthorized_witness :
  headers Sample.request_bad_token !! "Authorization" ≠ Some Sample.token /\
  run_transcribe Sample.no_fault Sample.request_bad_token
  = ((jsonify {[ "error" := "Invalid token" ]}, 401), Sample.world).
Proof.
  assert (H : headers Sample.request_bad_token !! "Authorization" ≠ Some Sample.token)
    by (vm_compute; intros Heq; discriminate Heq).
  split; [exact H|].
  exact (transcribe_unauthorized Sample.token Sample.static_folder Sample.engine_ok
           Sample.no_fault Sample.request_bad_token Sample.now Sample.world H).
Defined.

Lemma transcribe_no_audio_file_witness :
  headers Sample.request_no_file !! "Authorization" = Some Sample.token /\
  form_files Sample.request_no_file !! "audio_file" = None /\
  run_transcribe Sample.no_fault Sample.request_no_file
  = ((jsonify {[ "error" := "No audio file provided" ]}, 400), Sample.world).
Proof.
  assert (H1 : headers Sample.request_no_file !! "Authorization" = Some Sample.token)
    by (vm_compute; reflexivity).
  assert (H2 : form_files Sample.request_no_file !! "audio_file" = None)
    by (vm_compute; reflexivity).
  split; [exact H1|]. split; [exact H2|].
  exact (transcribe_no_audio_file Sample.token Sample.static_folder Sample.engine_ok
           Sample.no_fault Sample.request_no_file Sample.now Sample.world H1 H2).
Defined.

Lemma transcribe_internal_error_witness :
  transcribe_try Sample.token Sample.static_folder Sample.engine_ok Sample.disk_full
    Sample.request Sample.now Sample.world
  = (inl (OSError "[Errno 28] No space left on device"), Sample.world_disk_full) /\
  run_transcribe Sample.disk_full Sample.request
  = ((jsonify {[ "error" := "Internal server error" ]}, 500),
     {| dirs := dirs Sample.world_disk_full; files := files Sample.world_disk_full;
        log := log Sample.world_disk_full
               ++ [(ERROR, "Error during transcription: "
                           +:+ "[Errno 28] No space left on device")] |}) /\
  extends Sample.world Sample.world_disk_full /\
  headers Sample.request !! "Authorization" = Some Sample.token /\
  is_Some (form_files Sample.request !! "audio_file").
Proof.
  assert (H : transcribe_try Sample.token Sample.static_folder Sample.engine_ok
                Sample.disk_full Sample.request Sample.now Sample.world
              = (inl (OSError "[Errno 28] No space left on device"),
                 Sample.world_disk_full))
    by (vm_compute; reflexivity).
  split; [exact H|].
  exact (transcribe_internal_error Sample.token Sample.static_folder Sample.engine_ok
           Sample.disk_full Sample.request Sample.now Sample.world
           Sample.world_disk_full _ H).
Defined.

Lemma transcript_verbatim_witness :
  run_transcribe Sample.no_fault Sample.request
  = ((Sample.body_served, 200), Sample.world_served) /\
  exists (audio_file : FileStorage) (result : TranscriptionResult) (obj : gmap string string),
    let folder_path :=
      OsPath.join Sample.static_folder [folder_name (filename audio_file) Sample.now] in
    let file_path := OsPath.join folder_path [filename audio_file] in
    let text_file_path := OsPath.join folder_path [text_filename (filename audio_file)] in
    form_files Sample.request !! "audio_file" = Some audio_file /\
    (exists w_engine, Sample.engine_ok file_path w_engine = inr result) /\
    Sample.body_served = Json obj /\
    obj !! "transcribed_text" = Some (text result) /\
    obj !! "text_file_path" = Some text_file_path /\
    files Sample.world_served !! text_file_path = Some (text result).
Proof.
  assert (H : run_transcribe Sample.no_fault Sample.request
              = ((Sample.body_served, 200), Sample.world_served))
    by (vm_compute; reflexivity).
  split; [exact H|].
  exact (transcript_verbatim Sample.token Sample.static_folder Sample.engine_ok
           Sample.no_fault Sample.request Sample.now Sample.world Sample.world_served
           Sample.body_served H).
Defined.

Lemma caption_document_written_witness :
  run_transcribe Sample.no_fault Sample.request
  = ((Sample.body_served, 200), Sample.world_served) /\
  exists (audio_file : FileStorage) (result : TranscriptionResult) (obj : gmap string string),
    let folder_path :=
      OsPath.join Sample.static_folder [folder_name (filename audio_file) Sample.now] in
    let file_path := OsPath.join folder_path [filename audio_file] in
    let vtt_file_path := OsPath.join folder_path [vtt_filename (filename audio_file)] in
    form_files Sample.request !! "audio_file" = Some audio_file /\
    (exists w_engine, Sample.engine_ok file_path w_engine = inr result) /\
    Sample.body_served = Json obj /\
    obj !! "vtt_file_path" = Some vtt_file_path /\
    files Sample.world_served !! vtt_file_path
    = Some (Spec.caption_document (segments result)) /\
    Spec.caption_document (segments result)
    = "WEBVTT" +:+ Str.nl +:+ Str.nl
        +:+ fold_right String.append "" (map Spec.cue_block (segments result)) /\
    length (map Spec.cue_block (segments result)) = length (segments result).
Proof.
  assert (H : run_transcribe Sample.no_fault Sample.request
              = ((Sample.body_served, 200), Sample.world_served))
    by (vm_compute; reflexivity).
  split; [exact H|].
  exact (caption_document_written Sample.token Sample.static_folder Sample.engine_ok
           Sample.no_fault Sample.request Sample.now Sample.world Sample.world_served
           Sample.body_served H).
Defined.

Lemma storage_location_names_witness :
  datetime_valid Sample.now /\ 1000 <= year Sample.now /\
  Spec.same_second Sample.now Sample.later_in_the_second /\
  fst (OsPath.splitext "clip.wav") = fst (OsPath.splitext "clip.mp3") /\
  (exists ext : string,
     "clip.wav" = "clip" +:+ ext /\
     (ext = "" \/ exists e : string, ext = "." +:+ e /\ Spec.plain_ext e)) /\
  (forall s e : string,
     Spec.has_name s -> Spec.plain_ext e -> "clip.wav" = s +:+ "." +:+ e -> "clip" = s) /\
  folder_name "clip.wav" Sample.now = "clip" +:+ "_" +:+ Spec.stamp Sample.now /\
  String.length (Spec.stamp Sample.now) = 15%nat /\
  text_filename "clip.wav" = "clip_transcribed.txt" /\
  vtt_filename "clip.wav" = "clip.vtt" /\
  folder_name "clip.mp3" Sample.later_in_the_second = folder_name "clip.wav" Sample.now /\
  text_filename "clip.mp3" = text_filename "clip.wav" /\
  vtt_filename "clip.mp3" = vtt_filename "clip.wav".
Proof.
  assert (H1 : datetime_valid Sample.now) by (unfold datetime_valid; simpl; lia).
  assert (Hy : 1000 <= year Sample.now) by (simpl; lia).
  assert (H2 : Spec.same_second Sample.now Sample.later_in_the_second)
    by (repeat split; reflexivity).
  assert (H3 : fst (OsPath.splitext "clip.wav") = fst (OsPath.splitext "clip.mp3"))
    by (vm_compute; reflexivity).
  split; [exact H1|]. split; [exact Hy|]. split; [exact H2|]. split; [exact H3|].
  exact (storage_location_names "clip.wav" "clip.mp3" Sample.now Sample.later_in_the_second
           H1 Hy H2 H3).
Defined.


End SampleWitnesses.

(** * Further properties *)

(** ** Timestamps and whole seconds *)

Section WholeSeconds.

Local Open Scope Q_scope.

Lemma Qfloor_div_pos (s : Q) (k : positive) :
  Qfloor (s / inject_Z (Zpos k)) = (Qfloor s / Zpos k)%Z.
Proof.
  destruct s as [n d]. unfold Qdiv, Qinv, Qmult, Qfloor, inject_Z. simpl.
  rewrite Z.mul_1_r, Pos2Z.inj_mul. symmetry. apply Z.div_div; lia.
Qed.

Lemma Qfloor_sub_Z (s : Q) (z : Z) : Qfloor (s - inject_Z z) = (Qfloor s - z)%Z.
Proof.
  destruct s as [n d]. unfold Qminus, Qplus, Qopp, Qfloor, inject_Z. simpl.
  rewrite Pos.mul_1_r, Z.mul_1_r.
  replace (n + - z * Z.pos d)%Z with (n + (- z) * Z.pos d)%Z by lia.
  rewrite Z.div_add by lia. lia.
Qed.

Lemma Qfloor_Qmod (s : Q) (k : positive) :
  Qfloor (Spec.Qmod s (inject_Z (Zpos k))) = (Qfloor s mod Zpos k)%Z.
Proof.
  unfold Spec.Qmod.
  assert (Heq : s - inject_Z (Zpos k) * inject_Z (Qfloor (s / inject_Z (Zpos k)))
                == s - inject_Z (Zpos k * Qfloor (s / inject_Z (Zpos k)))).
  { rewrite inject_Z_mult. reflexivity. }
  rewrite Heq, Qfloor_sub_Z, Qfloor_div_pos.
  rewrite Z.mod_eq by lia. reflexivity.
Qed.

(** The three fields seen from the whole number of seconds. *)
Lemma fields_of_whole_seconds (s : Q) :
  Spec.hours s = (Qfloor s / 3600)%Z /\
  Spec.minutes s = (Qfloor s mod 3600 / 60)%Z /\
  Spec.secs s = (Qfloor s mod 60)%Z.
Proof.
  unfold Spec.hours, Spec.minutes, Spec.secs.
  change 3600 with (inject_Z (Zpos 3600)). change 60 with (inject_Z (Zpos 60)).
  rewrite !Qfloor_div_pos, !Qfloor_Qmod. repeat split; reflexivity.
Qed.

Lemma whole_seconds_nonneg (s : Q) : 0 <= s -> (0 <= Qfloor s)%Z.
Proof. intros Hs. change 0%Z with (Qfloor 0). now apply Qfloor_resp_le. Qed.

(** X1. The hour, minute and second numbers that [format_timestamp]
    computes for a binary64 input with [0 <= seconds < 2 ^ 53] put the
    whole number of seconds back together, with minutes and seconds below
    sixty: nothing of the integer part is lost or counted twice. *)
Theorem timestamp_fields_recompose (seconds : Q) :
  Py.is_binary64 seconds = true ->
  0 <= seconds -> seconds < inject_Z (2 ^ 53) ->
  let '(hours, minutes, secs, _) := timestamp_fields seconds in
  (hours * 3600 + minutes * 60 + secs = Qfloor seconds /\
   0 <= hours /\ 0 <= minutes < 60 /\ 0 <= secs < 60)%Z.
Proof.
  intros _ Hs Hb. rewrite timestamp_fields_nonneg by assumption.
  destruct (fields_of_whole_seconds seconds) as (-> & -> & ->).
  pose proof (whole_seconds_nonneg seconds Hs) as Hn.
  set (n := Qfloor seconds) in *. clearbody n.
  Z.div_mod_to_equations. lia.
Qed.

Lemma timestamp_fields_recompose_witness :
  Py.is_binary64 (7323 # 2) = true /\
  0 <= 7323 # 2 /\ 7323 # 2 < inject_Z (2 ^ 53) /\
  let '(hours, minutes, secs, _) := timestamp_fields (7323 # 2) in
  (hours * 3600 + minutes * 60 + secs = Qfloor (7323 # 2) /\
   0 <= hours /\ 0 <= minutes < 60 /\ 0 <= secs < 60)%Z.
Proof.
  assert (H64 : Py.is_binary64 (7323 # 2) = true) by (vm_compute; reflexivity).
  assert (H : 0 <= 7323 # 2) by (unfold Qle; simpl; lia).
  assert (Hb : 7323 # 2 < inject_Z (2 ^ 53)) by (vm_compute; reflexivity).
  split; [exact H64|]. split; [exact H|]. split; [exact Hb|].
  exact (timestamp_fields_recompose (7323 # 2) H64 H Hb).
Defined.

End WholeSeconds.

Section TimestampStrings.

Local Open Scope Q_scope.

Lemma str_app_inj_length (s1 t1 s2 t2 : string) :
  s1 +:+ t1 = s2 +:+ t2 -> String.length s1 = String.length s2 ->
  s1 = s2 /\ t1 = t2.
Proof.
  revert s2. induction s1 as [|a s1 IH]; intros [|b s2] Heq Hlen;
    try discriminate Hlen.
  - split; [reflexivity | exact Heq].
  - rewrite !str_app_cons in Heq. injection Heq as -> Heq.
    injection Hlen as Hlen. destruct (IH s2 Heq Hlen) as [-> ->].
    split; reflexivity.
Qed.

Lemma format_int_zero_inj (width : nat) (n m : Z) :
  (1 <= width)%nat -> (0 <= n)%Z -> (0 <= m)%Z ->
  Py.format_int_zero width n = Py.format_int_zero width m -> n = m.
Proof.
  intros Hw Hn Hm Heq.
  destruct (format_int_zero_padded width n Hw Hn) as (_ & <- & _).
  destruct (format_int_zero_padded width m Hw Hm) as (_ & <- & _).
  now rewrite Heq.
Qed.

(** Two digits stand for a number below one hundred. *)
Lemma two_digits_below_100 (s : string) :
  Spec.all_digits s -> String.length s = 2%nat -> (Py.decimal_value s < 100)%Z.
Proof.
  destruct s as [|a [|b [|c s]]]; try discriminate.
  intros (Ha & Hb & _) _. unfold Py.decimal_value. simpl.
  unfold Py.digit_value. unfold Spec.is_digit in Ha, Hb. lia.
Qed.

Lemma format_timestamp_nonneg (s : Q) :
  0 <= s -> s < inject_Z (2 ^ 53) ->
  format_timestamp s
  = Py.format_int_zero 2 (Spec.hours s) +:+ ":"
    +:+ Py.format_int_zero 2 (Spec.minutes s) +:+ ":"
    +:+ Py.format_int_zero 2 (Spec.secs s) +:+ "." +:+ Py.format_int_zero 3 0.
Proof. intros Hs Hb. unfold format_timestamp. now rewrite timestamp_fields_nonneg. Qed.

Lemma length_minutes_field (s : Q) :
  String.length (Py.format_int_zero 2 (Spec.minutes s)) = 2%nat.
Proof. apply format_int_zero_length; [lia|]. pose proof (minutes_range s). simpl. lia. Qed.

Lemma length_secs_field (s : Q) :
  String.length (Py.format_int_zero 2 (Spec.secs s)) = 2%nat.
Proof. apply format_int_zero_length; [lia|]. pose proof (secs_range s). simpl. lia. Qed.

Lemma length_format_timestamp (s : Q) :
  0 <= s -> s < inject_Z (2 ^ 53) ->
  String.length (format_timestamp s)
  = (String.length (Py.format_int_zero 2 (Spec.hours s)) + 10)%nat.
Proof.
  intros Hs Hb. rewrite format_timestamp_nonneg by assumption.
  rewrite !str_length_app, length_minutes_field, length_secs_field. simpl. lia.
Qed.

(** X2. For binary64 inputs with [0 <= seconds < 2 ^ 53],
    [format_timestamp] gives the same string exactly when the two inputs
    have the same whole number of seconds: times within one second are not
    told apart, and times in different seconds never collide, however
    large the hours. *)
Theorem format_timestamp_whole_seconds (s1 s2 : Q) :
  Py.is_binary64 s1 = true -> Py.is_binary64 s2 = true ->
  0 <= s1 -> s1 < inject_Z (2 ^ 53) -> 0 <= s2 -> s2 < inject_Z (2 ^ 53) ->
  (format_timestamp s1 = format_timestamp s2 <-> Qfloor s1 = Qfloor s2).
Proof.
  intros _ _ H1 Hb1 H2 Hb2. split.
  - intros Heq.
    assert (Hlen : String.length (Py.format_int_zero 2 (Spec.hours s1))
                   = String.length (Py.format_int_zero 2 (Spec.hours s2))).
    { pose proof (f_equal String.length Heq) as Hl.
      rewrite !length_format_timestamp in Hl by assumption. lia. }
    rewrite !format_timestamp_nonneg in Heq by assumption.
    destruct (str_app_inj_length _ _ _ _ Heq Hlen) as [Hh Hrest].
    apply String.app_inj in Hrest.
    destruct (str_app_inj_length _ _ _ _ Hrest) as [Hm Hrest'].
    { now rewrite !length_minutes_field. }
    apply String.app_inj in Hrest'.
    destruct (str_app_inj_length _ _ _ _ Hrest') as [Hs _].
    { now rewrite !length_secs_field. }
    apply format_int_zero_inj in Hh; [|lia|now apply hours_nonneg..].
    apply format_int_zero_inj in Hm; [|lia|apply minutes_range..].
    apply format_int_zero_inj in Hs; [|lia|apply secs_range..].
    destruct (fields_of_whole_seconds s1) as (Hh1 & Hm1 & Hs1).
    destruct (fields_of_whole_seconds s2) as (Hh2 & Hm2 & Hs2).
    rewrite Hh1, Hh2 in Hh. rewrite Hm1, Hm2 in Hm. rewrite Hs1, Hs2 in Hs.
    revert Hh Hm Hs. generalize (Qfloor s1) (Qfloor s2). intros n1 n2.
    Z.div_mod_to_equations. lia.
  - intros Hfloor. rewrite !format_timestamp_nonneg by assumption.
    destruct (fields_of_whole_seconds s1) as (-> & -> & ->).
    destruct (fields_of_whole_seconds s2) as (-> & -> & ->).
    now rewrite Hfloor.
Qed.

Lemma format_timestamp_whole_seconds_witness :
  Py.is_binary64 (3 # 2) = true /\ Py.is_binary64 (15 # 8) = true /\
  0 <= 3 # 2 /\ 3 # 2 < inject_Z (2 ^ 53) /\
  0 <= 15 # 8 /\ 15 # 8 < inject_Z (2 ^ 53) /\
  (format_timestamp (3 # 2) = format_timestamp (15 # 8)
   <-> Qfloor (3 # 2) = Qfloor (15 # 8)).
Proof.
  assert (F1 : Py.is_binary64 (3 # 2) = true) by (vm_compute; reflexivity).
  assert (F2 : Py.is_binary64 (15 # 8) = true) by (vm_compute; reflexivity).
  assert (H1 : 0 <= 3 # 2) by (unfold Qle; simpl; lia).
  assert (B1 : 3 # 2 < inject_Z (2 ^ 53)) by (vm_compute; reflexivity).
  assert (H2 : 0 <= 15 # 8) by (unfold Qle; simpl; lia).
  assert (B2 : 15 # 8 < inject_Z (2 ^ 53)) by (vm_compute; reflexivity).
  split; [exact F1|]. split; [exact F2|]. split; [exact H1|]. split; [exact B1|].
  split; [exact H2|]. split; [exact B2|].
  exact (format_timestamp_whole_seconds (3 # 2) (15 # 8) F1 F2 H1 B1 H2 B2).
Defined.

(** X3. For a binary64 input with [0 <= seconds < 2 ^ 53] the returned
    string has at least twelve characters, and exactly twelve if and only
    if the time is under one hundred hours. *)
Theorem format_timestamp_width (seconds : Q) :
  Py.is_binary64 seconds = true ->
  0 <= seconds -> seconds < inject_Z (2 ^ 53) ->
  (12 <= String.length (format_timestamp seconds))%nat /\
  (String.length (format_timestamp seconds) = 12%nat <-> seconds < 360000).
Proof.
  intros _ Hs Hb. rewrite length_format_timestamp by assumption.
  pose proof (hours_nonneg seconds Hs) as Hh.
  destruct (format_int_zero_padded 2 (Spec.hours seconds)) as (Hall & Hval & Hlen & _);
    [lia | exact Hh |].
  split; [lia|]. split.
  - intros Htwelve. apply Qnot_le_lt. intros Hge.
    assert (Hbig : (100 <= Spec.hours seconds)%Z).
    { unfold Spec.hours. change 100%Z with (Qfloor 100). apply Qfloor_resp_le.
      apply Qle_shift_div_l; [reflexivity | exact Hge]. }
    assert (Htwo : String.length (Py.format_int_zero 2 (Spec.hours seconds)) = 2%nat)
      by lia.
    pose proof (two_digits_below_100 _ Hall Htwo). lia.
  - intros Hlt. rewrite format_int_zero_length; [reflexivity | lia |].
    split; [exact Hh|]. change (10 ^ Z.of_nat 2)%Z with 100%Z.
    apply (Qfloor_range (seconds / 3600) 100).
    + apply div_nonneg; [exact Hs | reflexivity].
    + apply Qlt_shift_div_r; [reflexivity | exact Hlt].
Qed.

Lemma format_timestamp_width_witness :
  Py.is_binary64 (360000 # 1) = true /\
  0 <= 360000 # 1 /\ 360000 # 1 < inject_Z (2 ^ 53) /\
  (12 <= String.length (format_timestamp (360000 # 1)))%nat /\
  (String.length (format_timestamp (360000 # 1)) = 12%nat <-> 360000 # 1 < 360000).
Proof.
  assert (H64 : Py.is_binary64 (360000 # 1) = true) by (vm_compute; reflexivity).
  assert (H : 0 <= 360000 # 1) by (unfold Qle; simpl; lia).
  assert (Hb : 360000 # 1 < inject_Z (2 ^ 53)) by (vm_compute; reflexivity).
  split; [exact H64|]. split; [exact H|]. split; [exact Hb|].
  exact (format_timestamp_width (360000 # 1) H64 H Hb).
Defined.

End TimestampStrings.

(** ** The handlers, further *)

Section ServiceExtras.

Variable HARDCODED_TOKEN : string.
Variable STATIC_FOLDER : string.
Variable model_transcribe : string -> World -> exn + TranscriptionResult.
Variable io_fault : io_op -> World -> outcome.

Local Abbreviation transcribe_try' :=
  (transcribe_try HARDCODED_TOKEN STATIC_FOLDER model_transcribe io_fault).
Local Abbreviation transcribe' :=
  (transcribe HARDCODED_TOKEN STATIC_FOLDER model_transcribe io_fault).

(** A run of the [try] block that returns tells by its status which
    branch it took. *)
Lemma transcribe_try_status
    (request : Request) (now : datetime) (w w' : World) (response : Response) :
  transcribe_try' request now w = (inr response, w') ->
  (snd response = 401 /\ headers request !! "Authorization" ≠ Some HARDCODED_TOKEN) \/
  (snd response = 400 /\ headers request !! "Authorization" = Some HARDCODED_TOKEN /\
   form_files request !! "audio_file" = None) \/
  (snd response = 200 /\ headers request !! "Authorization" = Some HARDCODED_TOKEN /\
   is_Some (form_files request !! "audio_file")).
Proof.
  intros Hrun. unfold transcribe_try in Hrun.
  case_bool_decide as Htoken.
  { left. inversion Hrun; subst. split; [reflexivity | exact Htoken]. }
  right.
  destruct (form_files request !! "audio_file") as [audio_file|].
  2:{ left. inversion Hrun; subst. now repeat split. }
  right.
  repeat (apply bind_ok_inv in Hrun as (? & ? & _ & Hrun)).
  inversion Hrun; subst. split; [reflexivity|]. split; [exact Htoken | now eexists].
Qed.

(** An exception of the [try] block arises past the two checks. *)
Lemma transcribe_try_raises_past_checks
    (request : Request) (now : datetime) (w w' : World) (e : exn) :
  transcribe_try' request now w = (inl e, w') ->
  headers request !! "Authorization" = Some HARDCODED_TOKEN /\
  is_Some (form_files request !! "audio_file").
Proof.
  intros Hraise. unfold transcribe_try in Hraise.
  case_bool_decide as Htoken; [discriminate Hraise|].
  destruct (form_files request !! "audio_file") as [audio_file|];
    [|discriminate Hraise].
  split; [exact Htoken | now eexists].
Qed.

(** X5. The status of the answer of [transcribe] tells what happened:
    401 exactly when the header is not the token (whatever else the
    request holds), 400 exactly when the token is right and the form has
    no [audio_file], 500 exactly when the body raised, and 200 or 500
    exactly when both checks passed. *)
Theorem transcribe_status (request : Request) (now : datetime) (w : World) :
  let status := snd (fst (transcribe' request now w)) in
  (status = 401 <-> headers request !! "Authorization" ≠ Some HARDCODED_TOKEN) /\
  (status = 400 <-> headers request !! "Authorization" = Some HARDCODED_TOKEN /\
                    form_files request !! "audio_file" = None) /\
  (status = 500 <-> exists e w1, transcribe_try' request now w = (inl e, w1)) /\
  (status = 200 \/ status = 500 <->
   headers request !! "Authorization" = Some HARDCODED_TOKEN /\
   is_Some (form_files request !! "audio_file")).
Proof.
  cbv zeta. unfold transcribe.
  destruct (transcribe_try' request now w) as [[e|response] w1] eqn:Hrun.
  - destruct (transcribe_try_raises_past_checks _ _ _ _ _ Hrun) as (Htoken & Hfile).
    simpl. split; [split; [discriminate | intros Hne; contradiction]|].
    split; [split; [discriminate|]|].
    { intros [_ Hnone]. rewrite Hnone in Hfile. destruct Hfile as [? Hfile]. discriminate Hfile. }
    split; [split; [intros _; now exists e, w1 | reflexivity]|].
    split; [intros _; now split | intros _; now right].
  - simpl. destruct (transcribe_try_status _ _ _ _ _ Hrun)
      as [[Hst Htoken] | [(Hst & Htoken & Hfile) | (Hst & Htoken & Hfile)]];
      rewrite Hst.
    + split; [split; [intros _; exact Htoken | reflexivity]|].
      split; [split; [discriminate | intros [Heq _]; contradiction]|].
      split; [split; [discriminate | intros (e & w2 & Hraise); discriminate Hraise]|].
      split; [intros [Hx|Hx]; discriminate Hx | intros [Heq _]; contradiction].
    + split; [split; [discriminate | intros Hne; contradiction]|].
      split; [split; [intros _; now split | reflexivity]|].
      split; [split; [discriminate | intros (e & w2 & Hraise); discriminate Hraise]|].
      split; [intros [Hx|Hx]; discriminate Hx|].
      intros [_ [af Haf]]. rewrite Hfile in Haf. discriminate Haf.
    + split; [split; [discriminate | intros Hne; contradiction]|].
      split; [split; [discriminate|]|].
      { intros [_ Hnone]. rewrite Hnone in Hfile. destruct Hfile as [? Hfile]. discriminate Hfile. }
      split; [split; [discriminate | intros (e & w2 & Hraise); discriminate Hraise]|].
      split; [intros _; now split | intros _; now left].
Qed.

(** What a [save] that raises leaves behind: nothing but the target is
    touched, and the target is as before (the open failed) or holds the
    first characters of the stream (the copy or the close failed). *)
Lemma save_raises (audio_file : FileStorage) (path : string) (e : exn) (w w' : World) :
  save io_fault audio_file path w = (inl e, w') ->
  dirs w' = dirs w /\ log w' = log w /\
  (forall p : string, p ≠ path -> files w' !! p = files w !! p) /\
  (files w' !! path = files w !! path \/
   exists n : nat, files w' !! path = Some (Str.slice (stream audio_file) 0 n)).
Proof.
  unfold save. intros H.
  apply bind_inv in H as [(e1 & Hopen & _)|(dst & w1 & Hopen & H)].
  { unfold open_w in Hopen.
    apply bind_inv in Hopen as [(e2 & Hstep & _)|(u & w0 & _ & Hret)];
      [|discriminate Hret].
    apply attempt_inv in Hstep as [(e3 & _ & _ & ->)|(_ & Hr & _)]; [|discriminate Hr].
    split; [reflexivity|]. split; [reflexivity|]. split; [reflexivity | now left]. }
  apply open_w_ok in Hopen as [-> ->].
  apply bind_inv in H as [(e1 & Hwrite & _)|(u & w2 & Hwrite & Hclose)].
  { unfold file_write in Hwrite. cbn [dirs files log] in Hwrite.
    rewrite lookup_insert_eq in Hwrite. cbn [default] in Hwrite.
    rewrite str_app_nil_l, insert_insert_eq in Hwrite.
    destruct (raised _) in Hwrite; [|discriminate Hwrite].
    inversion Hwrite; subst; clear Hwrite. cbn [dirs files log].
    split; [reflexivity|]. split; [reflexivity|].
    split; [intros p Hp; now rewrite lookup_insert_ne by (apply not_eq_sym; exact Hp)|].
    right. eexists. apply lookup_insert_eq. }
  apply file_write_ok in Hwrite. cbn [dirs files log] in Hwrite.
  rewrite lookup_insert_eq, insert_insert_eq in Hwrite. cbn [default] in Hwrite.
  rewrite str_app_nil_l in Hwrite. subst w2.
  unfold file_close in Hclose. cbn [dirs files log] in Hclose.
  rewrite lookup_insert_eq, insert_insert_eq in Hclose. cbn [default] in Hclose.
  destruct (raised _) in Hclose; [|discriminate Hclose].
  inversion Hclose; subst; clear Hclose. cbn [dirs files log].
  split; [reflexivity|]. split; [reflexivity|].
  split; [intros p Hp; now rewrite lookup_insert_ne by (apply not_eq_sym; exact Hp)|].
  right. eexists. apply lookup_insert_eq.
Qed.

(** X6. When making the directory raises, [transcribe] answers 500; no
    file is written, the log gets the one error record, and the
    directories are those from before the request and the parents that the
    call made before it failed. *)
Theorem transcribe_makedirs_fails
    (request : Request) (now : datetime) (w : World)
    (audio_file : FileStorage) (e : exn) :
  let folder_path := OsPath.join STATIC_FOLDER [folder_name (filename audio_file) now] in
  headers request !! "Authorization" = Some HARDCODED_TOKEN ->
  form_files request !! "audio_file" = Some audio_file ->
  raised (io_fault (MakeDirs folder_path) w) = Some e ->
  transcribe' request now w
  = ((jsonify {[ "error" := "Internal server error" ]}, 500),
     {| dirs := made (io_fault (MakeDirs folder_path) w) ∪ dirs w;
        files := files w;
        log := log w ++ [(ERROR, "Error during transcription: " +:+ exn_str e)] |}).
Proof.
  cbv zeta. intros Htoken Hfile Hfault. unfold transcribe, transcribe_try.
  rewrite bool_decide_eq_false_2 by (intros Hne; now apply Hne).
  rewrite Hfile.
  erewrite bind_raises; [|unfold os_makedirs; rewrite Hfault; reflexivity].
  reflexivity.
Qed.

(** X7. When the directory is made and saving the upload raises in the
    world [w2], [transcribe] answers 500 and leaves [w2] with the one
    error record: the new directory stays, every file but the upload's is
    as before the request, and the upload's path is as before or holds the
    first characters of the upload. *)
Theorem transcribe_save_fails
    (request : Request) (now : datetime) (w w2 : World)
    (audio_file : FileStorage) (e : exn) :
  let folder_path := OsPath.join STATIC_FOLDER [folder_name (filename audio_file) now] in
  let file_path := OsPath.join folder_path [filename audio_file] in
  let w_dir :=
    {| dirs := {[folder_path]} ∪ (made (io_fault (MakeDirs folder_path) w) ∪ dirs w);
       files := files w; log := log w |} in
  headers request !! "Authorization" = Some HARDCODED_TOKEN ->
  form_files request !! "audio_file" = Some audio_file ->
  raised (io_fault (MakeDirs folder_path) w) = None ->
  save io_fault audio_file file_path w_dir = (inl e, w2) ->
  transcribe' request now w
  = ((jsonify {[ "error" := "Internal server error" ]}, 500),
     {| dirs := dirs w2; files := files w2;
        log := log w2 ++ [(ERROR, "Error during transcription: " +:+ exn_str e)] |}) /\
  dirs w2 = {[folder_path]} ∪ (made (io_fault (MakeDirs folder_path) w) ∪ dirs w) /\
  log w2 = log w /\
  (forall p : string, p ≠ file_path -> files w2 !! p = files w !! p) /\
  (files w2 !! file_path = files w !! file_path \/
   exists n : nat, files w2 !! file_path = Some (Str.slice (stream audio_file) 0 n)).
Proof.
  cbv zeta. intros Htoken Hfile Hmk Hsave. split.
  - unfold transcribe, transcribe_try.
    rewrite bool_decide_eq_false_2 by (intros Hne; now apply Hne).
    rewrite Hfile.
    erewrite bind_returns; [|unfold os_makedirs; rewrite Hmk; reflexivity].
    erewrite bind_raises; [|exact Hsave].
    reflexivity.
  - exact (save_raises _ _ _ _ _ Hsave).
Qed.

(** X8. When the upload is saved and the engine raises, [transcribe]
    answers 500; the uploaded audio stays on disk under its name with its
    bytes, and neither the transcript nor the captions are written: the
    files are those from before the request plus the audio alone. *)
Theorem transcribe_engine_fails
    (request : Request) (now : datetime) (w : World)
    (audio_file : FileStorage) (e : exn) :
  let folder_path := OsPath.join STATIC_FOLDER [folder_name (filename audio_file) now] in
  let file_path := OsPath.join folder_path [filename audio_file] in
  let dirs_made := {[folder_path]} ∪ (made (io_fault (MakeDirs folder_path) w) ∪ dirs w) in
  let w_dir := {| dirs := dirs_made; files := files w; log := log w |} in
  let w_saved :=
    {| dirs := dirs_made;
       files := <[file_path := stream audio_file]> (files w);
       log := log w ++ [(INFO, "Transcribing audio file: " +:+ file_path)] |} in
  headers request !! "Authorization" = Some HARDCODED_TOKEN ->
  form_files request !! "audio_file" = Some audio_file ->
  raised (io_fault (MakeDirs folder_path) w) = None ->
  fst (save io_fault audio_file file_path w_dir) = inr tt ->
  model_transcribe file_path w_saved = inl e ->
  transcribe' request now w
  = ((jsonify {[ "error" := "Internal server error" ]}, 500),
     {| dirs := dirs_made;
        files := <[file_path := stream audio_file]> (files w);
        log := (log w ++ [(INFO, "Transcribing audio file: " +:+ file_path)])
               ++ [(ERROR, "Error during transcription: " +:+ exn_str e)] |}).
Proof.
  cbv zeta. intros Htoken Hfile Hmk Hsave Hengine. unfold transcribe, transcribe_try.
  rewrite bool_decide_eq_false_2 by (intros Hne; now apply Hne).
  rewrite Hfile.
  erewrite bind_returns; [|unfold os_makedirs; rewrite Hmk; reflexivity].
  match type of Hsave with
  | fst (?run) = _ => destruct run as [r w2] eqn:Hrun
  end.
  cbn [fst] in Hsave. subst r.
  pose proof (save_ok _ _ _ _ _ _ Hrun) as Hw2. cbn [dirs files log] in Hw2. subst w2.
  erewrite bind_returns; [|exact Hrun].
  erewrite bind_returns; [|reflexivity].
  erewrite bind_raises;
    [|unfold engine; cbn [dirs files log]; rewrite Hengine; reflexivity].
  reflexivity.
Qed.

(** X9. A second request for the same upload within the same second,
    served after the first, goes to the same directory and the same file
    paths: the directory was there, no file is added, both answers name
    the same paths, and the transcript and captions on disk are now those
    of the result that the engine gave at the second run. *)
Theorem transcribe_same_second_overwrites
    (request : Request) (t1 t2 : datetime) (w w1 w2 : World) (body1 body2 : Body) :
  Spec.same_second t1 t2 ->
  transcribe' request t1 w = ((body1, 200), w1) ->
  transcribe' request t2 w1 = ((body2, 200), w2) ->
  exists (audio_file : FileStorage) (result2 : TranscriptionResult)
         (obj1 obj2 : gmap string string),
    let folder_path := OsPath.join STATIC_FOLDER [folder_name (filename audio_file) t1] in
    let file_path := OsPath.join folder_path [filename audio_file] in
    let text_file_path := OsPath.join folder_path [text_filename (filename audio_file)] in
    let vtt_file_path := OsPath.join folder_path [vtt_filename (filename audio_file)] in
    let w_engine :=
      {| dirs := {[folder_path]} ∪ (made (io_fault (MakeDirs folder_path) w1) ∪ dirs w1);
         files := <[file_path := stream audio_file]> (files w1);
         log := log w1 ++ [(INFO, "Transcribing audio file: " +:+ file_path)] |} in
    form_files request !! "audio_file" = Some audio_file /\
    model_transcribe file_path w_engine = inr result2 /\
    folder_path ∈ dirs w1 /\
    dirs w2 = made (io_fault (MakeDirs folder_path) w1) ∪ dirs w1 /\
    dom (files w2) = dom (files w1) /\
    body1 = Json obj1 /\ body2 = Json obj2 /\
    obj1 !! "text_file_path" = Some text_file_path /\
    obj2 !! "text_file_path" = Some text_file_path /\
    obj1 !! "vtt_file_path" = Some vtt_file_path /\
    obj2 !! "vtt_file_path" = Some vtt_file_path /\
    obj2 !! "transcribed_text" = Some (text result2) /\
    files w2 !! text_file_path = Some (text result2) /\
    files w2 !! vtt_file_path = Some (Spec.caption_document (segments result2)).
Proof.
  intros Hsame Hrun1 Hrun2.
  apply transcribe_200_inv in Hrun1. apply transcribe_200_inv in Hrun2.
  apply transcribe_try_returns in Hrun1; [|reflexivity].
  apply transcribe_try_returns in Hrun2; [|reflexivity].
  destruct Hrun1 as (af & r1 & _ & Hfile & _ & Hresp1 & Hdirs1 & Hfiles1 & _).
  destruct Hrun2 as (af' & r2 & _ & Hfile' & Hmodel & Hresp2 & Hdirs2 & Hfiles2 & _).
  rewrite Hfile in Hfile'. injection Hfile' as <-.
  assert (Hfolder : folder_name (filename af) t2 = folder_name (filename af) t1).
  { unfold folder_name. now rewrite (strftime_same_second t1 t2). }
  rewrite Hfolder in *.
  assert (Hthere : OsPath.join STATIC_FOLDER [folder_name (filename af) t1] ∈ dirs w1).
  { rewrite Hdirs1. apply elem_of_union_l, elem_of_singleton. reflexivity. }
  exists af, r2. eexists. eexists. cbv zeta.
  split; [exact Hfile|].
  split; [exact Hmodel|].
  split; [exact Hthere|].
  split.
  { rewrite Hdirs2. apply set_eq. intros x.
    rewrite !elem_of_union, elem_of_singleton. split; [|tauto].
    intros [->|Hx]; [right; exact Hthere | exact Hx]. }
  split.
  { rewrite Hfiles2, Hfiles1, !dom_insert_L.
    apply set_eq. intros x. rewrite !elem_of_union. tauto. }
  split; [now inversion Hresp1|]. split; [now inversion Hresp2|].
  split; [rewrite lookup_insert_ne by discriminate; apply lookup_insert_eq|].
  split; [rewrite lookup_insert_ne by discriminate; apply lookup_insert_eq|].
  split; [do 2 (rewrite lookup_insert_ne by discriminate); apply lookup_singleton_eq|].
  split; [do 2 (rewrite lookup_insert_ne by discriminate); apply lookup_singleton_eq|].
  split; [apply lookup_insert_eq|].
  rewrite Hfiles2. split.
  - rewrite lookup_insert_ne by (apply not_eq_sym, text_path_not_vtt_path).
    apply lookup_insert_eq.
  - apply lookup_insert_eq.
Qed.

End ServiceExtras.

(** ** Where the artifacts go *)

Section PathExtras.

(** The root of a name starts as the name does: with a separator or
    without. *)
Lemma stem_starts (fn x : string) :
  Str.starts_with x "/" = false ->
  Str.starts_with (fst (OsPath.splitext fn) +:+ x) "/" = Str.starts_with fn "/".
Proof.
  intros Hx. destruct (splitext_decompose fn) as (stem & ext & Hsplit & Hfn & Hext).
  rewrite Hsplit. cbn [fst]. rewrite Hfn.
  destruct stem as [|c stem].
  - rewrite !str_app_nil_l, Hx.
    destruct Hext as [->|(e & -> & _)]; reflexivity.
  - rewrite !str_app_cons, !starts_with_cons. reflexivity.
Qed.

Lemma join2_common_prefix (a b1 b2 : string) :
  Str.starts_with b1 "/" = Str.starts_with b2 "/" ->
  exists pre : string, OsPath.join2 a b1 = pre +:+ b1 /\ OsPath.join2 a b2 = pre +:+ b2.
Proof.
  intros Hsame. unfold OsPath.join2. rewrite Hsame.
  destruct (Str.starts_with b2 "/").
  - exists "". split; reflexivity.
  - destruct (String.eqb a "" || Str.ends_with a "/").
    + exists a. split; reflexivity.
    + exists (a +:+ "/"). rewrite !str_app_assoc. split; reflexivity.
Qed.

(** The upload and the transcript never share a path; the upload and the
    captions do exactly when the upload's extension is [.vtt]. *)
Lemma audio_path_not_text_path (folder fn : string) :
  OsPath.join folder [fn] ≠ OsPath.join folder [text_filename fn].
Proof.
  unfold OsPath.join, text_filename. simpl.
  destruct (join2_common_prefix folder fn (fst (OsPath.splitext fn) +:+ "_transcribed.txt"))
    as (pre & -> & ->).
  { symmetry. now apply stem_starts. }
  destruct (splitext_decompose fn) as (stem & ext & Hsplit & Hfn & Hext).
  rewrite Hsplit. cbn [fst]. rewrite Hfn at 1.
  intros Heq. apply String.app_inj in Heq. apply String.app_inj in Heq.
  destruct Hext as [->|(e & -> & _)]; discriminate Heq.
Qed.

Lemma audio_path_is_vtt_path (folder fn : string) :
  OsPath.join folder [fn] = OsPath.join folder [vtt_filename fn]
  <-> snd (OsPath.splitext fn) = ".vtt".
Proof.
  unfold OsPath.join, vtt_filename. simpl.
  destruct (join2_common_prefix folder fn (fst (OsPath.splitext fn) +:+ ".vtt"))
    as (pre & -> & ->).
  { symmetry. now apply stem_starts. }
  destruct (splitext_decompose fn) as (stem & ext & Hsplit & Hfn & Hext).
  rewrite Hsplit. cbn [fst snd]. rewrite Hfn at 1. split.
  - intros Heq. apply String.app_inj in Heq. now apply String.app_inj in Heq.
  - now intros ->.
Qed.

Lemma all_digits_no_slash (s : string) : Spec.all_digits s -> Str.has_char "/" s = false.
Proof.
  induction s as [|c s IH]; [reflexivity|]. intros [Hc Hs]. simpl.
  rewrite (IH Hs), orb_false_r.
  destruct (Ascii.eqb_spec c "/") as [->|_]; [|reflexivity].
  unfold Spec.is_digit in Hc. change (nat_of_ascii "/") with 47%nat in Hc. lia.
Qed.

Lemma format_int_zero_no_slash (width : nat) (n : Z) :
  Str.has_char "/" (Py.format_int_zero width n) = false.
Proof.
  unfold Py.format_int_zero. destruct (n <? 0) eqn:Hneg.
  - apply Z.ltb_lt in Hneg. rewrite has_char_app. simpl.
    apply all_digits_no_slash. unfold Str.zero_fill.
    apply all_digits_app; [apply all_digits_replicate|].
    apply (str_of_nonneg_numeral (- n)). lia.
  - apply Z.ltb_ge in Hneg. apply all_digits_no_slash. unfold Str.zero_fill.
    apply all_digits_app; [apply all_digits_replicate|].
    now apply (str_of_nonneg_numeral n).
Qed.

Lemma format_int_zero_nonempty (width : nat) (n : Z) :
  (1 <= width)%nat -> (1 <= String.length (Py.format_int_zero width n))%nat.
Proof.
  intros Hw. unfold Py.format_int_zero. destruct (n <? 0).
  - rewrite str_length_app. simpl. lia.
  - rewrite length_zero_fill. lia.
Qed.

Lemma ends_with_slash_absent (t : string) :
  Str.has_char "/" t = false -> Str.ends_with t "/" = false.
Proof.
  induction t as [|a t IH]; [reflexivity|].
  cbn [Str.has_char Str.ends_with]. intros H.
  apply orb_false_iff in H as [Ha Ht].
  destruct (String.eqb_spec (String a t) "/") as [Heq|_]; [|now apply IH].
  injection Heq as -> _. discriminate Ha.
Qed.

(** A directory name never ends with a separator: it ends with the
    seconds of the clock. *)
Lemma folder_path_open_ended (root fn : string) (now : datetime) :
  Str.ends_with (root +:+ "/" +:+ folder_name fn now) "/" = false.
Proof.
  unfold folder_name. rewrite strftime_fields.
  rewrite <- !str_app_assoc. rewrite ends_with_slash_app.
  - apply ends_with_slash_absent, format_int_zero_no_slash.
  - apply format_int_zero_nonempty. lia.
Qed.

(** X10. For an upload whose name does not start with a separator, and
    a storage root that is not empty and does not end with one, the
    directory of the request is [root/directory name] and the upload, the
    transcript and the captions are [root/directory name/file name]:
    every path of the request starts with the storage root. *)
Theorem paths_under_storage_root (STATIC_FOLDER fn : string) (now : datetime) :
  STATIC_FOLDER <> "" -> Str.ends_with STATIC_FOLDER "/" = false ->
  Str.starts_with fn "/" = false ->
  let folder_path := OsPath.join STATIC_FOLDER [folder_name fn now] in
  folder_path = STATIC_FOLDER +:+ "/" +:+ folder_name fn now /\
  OsPath.join folder_path [fn] = folder_path +:+ "/" +:+ fn /\
  OsPath.join folder_path [text_filename fn] = folder_path +:+ "/" +:+ text_filename fn /\
  OsPath.join folder_path [vtt_filename fn] = folder_path +:+ "/" +:+ vtt_filename fn.
Proof.
  intros Hroot Hend Hfn. cbv zeta. unfold OsPath.join. simpl.
  assert (Hfolder : OsPath.join2 STATIC_FOLDER (folder_name fn now)
                    = STATIC_FOLDER +:+ "/" +:+ folder_name fn now).
  { apply join2_relative; [exact Hroot | exact Hend |].
    unfold folder_name. rewrite stem_starts; [exact Hfn | reflexivity]. }
  rewrite Hfolder. split; [reflexivity|].
  assert (Hne : STATIC_FOLDER +:+ "/" +:+ folder_name fn now <> "").
  { destruct STATIC_FOLDER; [contradiction | discriminate]. }
  pose proof (folder_path_open_ended STATIC_FOLDER fn now) as Hopen.
  split; [now apply join2_relative|].
  split; apply join2_relative; try assumption.
  - unfold text_filename. rewrite stem_starts; [exact Hfn | reflexivity].
  - unfold vtt_filename. rewrite stem_starts; [exact Hfn | reflexivity].
Qed.

(** X11. For an upload whose name starts with a separator, the storage
    root plays no part: the directory is the directory name itself, the
    upload is saved at its own name, and the transcript and the captions
    at their file names. *)
Theorem paths_of_absolute_upload (STATIC_FOLDER fn : string) (now : datetime) :
  Str.starts_with fn "/" = true ->
  let folder_path := OsPath.join STATIC_FOLDER [folder_name fn now] in
  folder_path = folder_name fn now /\
  OsPath.join folder_path [fn] = fn /\
  OsPath.join folder_path [text_filename fn] = text_filename fn /\
  OsPath.join folder_path [vtt_filename fn] = vtt_filename fn /\
  Str.starts_with (folder_name fn now) "/" = true /\
  Str.starts_with (text_filename fn) "/" = true /\
  Str.starts_with (vtt_filename fn) "/" = true.
Proof.
  intros Hfn. cbv zeta. unfold OsPath.join. simpl.
  assert (Hfolder : Str.starts_with (folder_name fn now) "/" = true).
  { unfold folder_name. rewrite stem_starts; [exact Hfn | reflexivity]. }
  assert (Htext : Str.starts_with (text_filename fn) "/" = true).
  { unfold text_filename. rewrite stem_starts; [exact Hfn | reflexivity]. }
  assert (Hvtt : Str.starts_with (vtt_filename fn) "/" = true).
  { unfold vtt_filename. rewrite stem_starts; [exact Hfn | reflexivity]. }
  rewrite !join2_absolute by assumption. repeat split; assumption.
Qed.

Lemma length_year_field (t : datetime) :
  datetime_valid t -> String.length (Py.format_int_zero 4 (year t)) = 4%nat.
Proof. intros (Hy & _). apply format_int_zero_length; simpl; lia. Qed.

Lemma length_two_digit_field (n : Z) :
  0 <= n < 100 -> String.length (Py.format_int_zero 2 n) = 2%nat.
Proof. intros Hn. apply format_int_zero_length; simpl; lia. Qed.

(** Valid clock readings with the same stamp are within the same second. *)
Lemma stamp_inj (t1 t2 : datetime) :
  datetime_valid t1 -> datetime_valid t2 ->
  Spec.stamp t1 = Spec.stamp t2 -> Spec.same_second t1 t2.
Proof.
  intros Hv1 Hv2 Heq.
  pose proof (length_year_field t1 Hv1) as Ly1.
  pose proof (length_year_field t2 Hv2) as Ly2.
  destruct Hv1 as (Hy1 & Hmo1 & Hd1 & Hh1 & Hmi1 & Hs1 & _).
  destruct Hv2 as (Hy2 & Hmo2 & Hd2 & Hh2 & Hmi2 & Hs2 & _).
  unfold Spec.stamp in Heq.
  apply str_app_inj_length in Heq as [Hy Heq]; [|congruence].
  apply str_app_inj_length in Heq as [Hmo Heq];
    [|rewrite !length_two_digit_field by lia; reflexivity].
  apply str_app_inj_length in Heq as [Hd Heq];
    [|rewrite !length_two_digit_field by lia; reflexivity].
  apply String.app_inj in Heq.
  apply str_app_inj_length in Heq as [Hh Heq];
    [|rewrite !length_two_digit_field by lia; reflexivity].
  apply str_app_inj_length in Heq as [Hmi Hs];
    [|rewrite !length_two_digit_field by lia; reflexivity].
  unfold Spec.same_second.
  repeat split; eapply format_int_zero_inj; try eassumption; lia.
Qed.

(** X12. With valid clock readings from the year 1000 on, two requests
    get the same directory name exactly when their uploads have the same
    root and the requests fall within the same second. *)
Theorem folder_name_collision (f1 f2 : string) (t1 t2 : datetime) :
  datetime_valid t1 -> datetime_valid t2 -> 1000 <= year t1 -> 1000 <= year t2 ->
  (folder_name f1 t1 = folder_name f2 t2
   <-> fst (OsPath.splitext f1) = fst (OsPath.splitext f2) /\ Spec.same_second t1 t2).
Proof.
  intros Hv1 Hv2 Hy1 Hy2. unfold folder_name.
  rewrite (strftime_stamp t1) by (destruct Hv1 as (Hy & _); lia).
  rewrite (strftime_stamp t2) by (destruct Hv2 as (Hy & _); lia).
  split.
  - intros Heq.
    assert (Hlen : String.length (fst (OsPath.splitext f1))
                   = String.length (fst (OsPath.splitext f2))).
    { pose proof (f_equal String.length Heq) as Hl.
      rewrite !str_length_app, !length_stamp in Hl by assumption. lia. }
    apply str_app_inj_length in Heq as [Hstem Heq]; [|exact Hlen].
    apply String.app_inj in Heq. split; [exact Hstem | now apply stamp_inj].
  - intros [-> Hsame]. now rewrite (stamp_same_second t1 t2 Hsame).
Qed.

End PathExtras.

(** ** The upload on disk, and the start of the application *)

Section DiskExtras.

Variable HARDCODED_TOKEN : string.
Variable STATIC_FOLDER : string.
Variable model_transcribe : string -> World -> exn + TranscriptionResult.
Variable io_fault : io_op -> World -> outcome.

Local Abbreviation transcribe' :=
  (transcribe HARDCODED_TOKEN STATIC_FOLDER model_transcribe io_fault).

(** The upload's path after a run that answered 200. *)
Lemma upload_path_after_200
    (request : Request) (now : datetime) (w w' : World) (body : Body) :
  transcribe' request now w = ((body, 200), w') ->
  exists (audio_file : FileStorage) (result : TranscriptionResult),
    form_files request !! "audio_file" = Some audio_file /\
    files w' !! OsPath.join
                  (OsPath.join STATIC_FOLDER [folder_name (filename audio_file) now])
                  [filename audio_file]
    = Some (if bool_decide (snd (OsPath.splitext (filename audio_file)) = ".vtt")
            then Spec.caption_document (segments result)
            else stream audio_file).
Proof.
  intros Hrun. apply transcribe_200_inv in Hrun.
  apply transcribe_try_returns in Hrun; [|reflexivity].
  destruct Hrun as (audio_file & result & _ & Hfile & _ & _ & _ & Hfiles & _).
  exists audio_file, result. split; [exact Hfile|].
  rewrite Hfiles. case_bool_decide as Hext.
  - pose proof (proj2 (audio_path_is_vtt_path
                         (OsPath.join STATIC_FOLDER [folder_name (filename audio_file) now])
                         (filename audio_file)) Hext) as Hsame.
    rewrite Hsame. apply lookup_insert_eq.
  - rewrite lookup_insert_ne.
    2:{ intros Heq. apply Hext. symmetry in Heq.
        exact (proj1 (audio_path_is_vtt_path _ _) Heq). }
    rewrite lookup_insert_ne by (apply not_eq_sym, audio_path_not_text_path).
    apply lookup_insert_eq.
Qed.

(** X13. After [transcribe] has answered 200, the upload is on disk under
    its own name with the bytes that were sent, unless its extension is
    [.vtt]: then the caption file has the same path and was written later,
    so the upload holds the caption document instead. *)
Theorem upload_kept_unless_vtt
    (request : Request) (now : datetime) (w w' : World) (body : Body) :
  transcribe' request now w = ((body, 200), w') ->
  exists (audio_file : FileStorage) (result : TranscriptionResult),
    let folder_path :=
      OsPath.join STATIC_FOLDER [folder_name (filename audio_file) now] in
    let file_path := OsPath.join folder_path [filename audio_file] in
    form_files request !! "audio_file" = Some audio_file /\
    (exists w_engine, model_transcribe file_path w_engine = inr result) /\
    files w' !! file_path
    = Some (if bool_decide (snd (OsPath.splitext (filename audio_file)) = ".vtt")
            then Spec.caption_document (segments result)
            else stream audio_file).
Proof.
  intros Hrun. apply transcribe_200_inv in Hrun.
  apply transcribe_try_returns in Hrun; [|reflexivity].
  destruct Hrun as (audio_file & result & _ & Hfile & Hmodel & _ & _ & Hfiles & _).
  exists audio_file, result. cbv zeta.
  split; [exact Hfile|]. split; [eexists; exact Hmodel|].
  rewrite Hfiles. case_bool_decide as Hext.
  - pose proof (proj2 (audio_path_is_vtt_path
                         (OsPath.join STATIC_FOLDER [folder_name (filename audio_file) now])
                         (filename audio_file)) Hext) as Hsame.
    rewrite Hsame. apply lookup_insert_eq.
  - rewrite lookup_insert_ne.
    2:{ intros Heq. apply Hext. symmetry in Heq.
        exact (proj1 (audio_path_is_vtt_path _ _) Heq). }
    rewrite lookup_insert_ne by (apply not_eq_sym, audio_path_not_text_path).
    apply lookup_insert_eq.
Qed.

End DiskExtras.

Section DownloadExtras.

Variable HARDCODED_TOKEN : string.
Variable STATIC_FOLDER : string.
Variable model_transcribe : string -> World -> exn + TranscriptionResult.
Variable io_fault : io_op -> World -> outcome.
Variable ROOT_PATH : string.

Local Abbreviation transcribe' :=
  (transcribe HARDCODED_TOKEN STATIC_FOLDER model_transcribe io_fault).

(** With an absolute storage root, [send_file] looks where [transcribe]
    wrote. *)
Lemma send_file_absolute (parts : list string) :
  Str.starts_with STATIC_FOLDER "/" = true ->
  OsPath.join ROOT_PATH [OsPath.join STATIC_FOLDER parts] = OsPath.join STATIC_FOLDER parts.
Proof.
  intros Habs. unfold OsPath.join at 1. cbn [fold_left]. apply join2_absolute.
  unfold OsPath.join. revert Habs. generalize STATIC_FOLDER.
  induction parts as [|p parts IH]; intros a Ha; [exact Ha|].
  cbn [fold_left]. apply IH. now apply join2_absolute_left.
Qed.

(** X4. With an absolute storage root: after [transcribe] has answered
    200, the download handlers given the directory name and the artifact
    names of that request return the artifacts as they were written:
    [download_text] the engine's text, [download_vtt] the caption
    document, and neither changes the world. *)
Theorem download_after_transcribe
    (request : Request) (now : datetime) (w w' : World) (body : Body) :
  Str.starts_with STATIC_FOLDER "/" = true ->
  transcribe' request now w = ((body, 200), w') ->
  exists (audio_file : FileStorage) (result : TranscriptionResult),
    let folder := folder_name (filename audio_file) now in
    let text_name := text_filename (filename audio_file) in
    let vtt_name := vtt_filename (filename audio_file) in
    form_files request !! "audio_file" = Some audio_file /\
    (exists w_engine,
       model_transcribe
         (OsPath.join STATIC_FOLDER [folder; filename audio_file]) w_engine
       = inr result) /\
    download_text STATIC_FOLDER ROOT_PATH folder text_name w'
    = (inr (Attachment (OsPath.join STATIC_FOLDER [folder; text_name]) (text result),
            200), w') /\
    download_vtt STATIC_FOLDER ROOT_PATH folder vtt_name w'
    = (inr (Attachment (OsPath.join STATIC_FOLDER [folder; vtt_name])
              (Spec.caption_document (segments result)), 200), w').
Proof.
  intros Habs Hrun. apply transcribe_200_inv in Hrun.
  apply transcribe_try_returns in Hrun; [|reflexivity].
  destruct Hrun as (audio_file & result & _ & Hfile & Hmodel & _ & _ & Hfiles & _).
  exists audio_file, result. cbv zeta.
  split; [exact Hfile|]. split; [eexists; exact Hmodel|].
  unfold download_text, download_vtt, try_except_FileNotFoundError, send_file.
  rewrite !send_file_absolute by exact Habs.
  change (OsPath.join STATIC_FOLDER
            [folder_name (filename audio_file) now; text_filename (filename audio_file)])
    with (OsPath.join (OsPath.join STATIC_FOLDER [folder_name (filename audio_file) now])
            [text_filename (filename audio_file)]).
  change (OsPath.join STATIC_FOLDER
            [folder_name (filename audio_file) now; vtt_filename (filename audio_file)])
    with (OsPath.join (OsPath.join STATIC_FOLDER [folder_name (filename audio_file) now])
            [vtt_filename (filename audio_file)]).
  rewrite Hfiles.
  rewrite lookup_insert_eq.
  rewrite lookup_insert_ne by (apply not_eq_sym, text_path_not_vtt_path).
  rewrite lookup_insert_eq. split; reflexivity.
Qed.

(** X15. With an absolute storage root: after [transcribe] has answered
    200 for an upload whose extension is not [.vtt], either download
    handler, given the directory name of the request and the upload's own
    name, returns the uploaded bytes: the handlers serve whatever file is
    at the joined path, not only the artifact their route is named
    after. *)
Theorem download_returns_upload
    (request : Request) (now : datetime) (w w' : World) (body : Body)
    (audio_file : FileStorage) :
  Str.starts_with STATIC_FOLDER "/" = true ->
  transcribe' request now w = ((body, 200), w') ->
  form_files request !! "audio_file" = Some audio_file ->
  snd (OsPath.splitext (filename audio_file)) ≠ ".vtt" ->
  let folder := folder_name (filename audio_file) now in
  let file_path := OsPath.join STATIC_FOLDER [folder; filename audio_file] in
  download_text STATIC_FOLDER ROOT_PATH folder (filename audio_file) w'
  = (inr (Attachment file_path (stream audio_file), 200), w') /\
  download_vtt STATIC_FOLDER ROOT_PATH folder (filename audio_file) w'
  = (inr (Attachment file_path (stream audio_file), 200), w').
Proof.
  intros Habs Hrun Hfile Hext. cbv zeta.
  destruct (upload_path_after_200 _ _ _ _ request now w w' body Hrun)
    as (af & result & Hfile' & Hlookup).
  rewrite Hfile in Hfile'. injection Hfile' as <-.
  rewrite bool_decide_eq_false_2 in Hlookup by exact Hext.
  unfold download_text, download_vtt, try_except_FileNotFoundError, send_file.
  rewrite !send_file_absolute by exact Habs.
  change (OsPath.join STATIC_FOLDER
            [folder_name (filename audio_file) now; filename audio_file])
    with (OsPath.join (OsPath.join STATIC_FOLDER [folder_name (filename audio_file) now])
            [filename audio_file]).
  rewrite Hlookup. split; reflexivity.
Qed.

End DownloadExtras.

Section StartupExtras.

Variable STATIC_FOLDER : string.
Variable io_fault : io_op -> World -> outcome.
Variable MODEL_NAME : string.
Variable load_model : string -> World -> option exn.

Local Abbreviation startup' := (startup STATIC_FOLDER io_fault MODEL_NAME load_model).


End StartupExtras.

(** ** The further properties at the sample request *)

Section SampleExtras.

Local Abbreviation run faults engine request now w :=
  (transcribe Sample.token Sample.static_folder engine faults request now w).

Local Abbreviation run_abs :=
  (transcribe Sample.token Sample.static_abs Sample.engine_ok Sample.no_fault
     Sample.request Sample.now Sample.world_abs).

Local Abbreviation internal_error e w :=
  ((jsonify {[ "error" := "Internal server error" ]}, 500),
   {| dirs := dirs w; files := files w;
      log := log w ++ [(ERROR, "Error during transcription: " +:+ e)] |}).

Lemma download_after_transcribe_witness :
  Str.starts_with Sample.static_abs "/" = true /\
  run_abs = ((Sample.body_abs_served, 200), Sample.world_abs_served) /\
  exists (audio_file : FileStorage) (result : TranscriptionResult),
    let folder := folder_name (filename audio_file) Sample.now in
    let text_name := text_filename (filename audio_file) in
    let vtt_name := vtt_filename (filename audio_file) in
    form_files Sample.request !! "audio_file" = Some audio_file /\
    (exists w_engine,
       Sample.engine_ok
         (OsPath.join Sample.static_abs [folder; filename audio_file]) w_engine
       = inr result) /\
    download_text Sample.static_abs Sample.root_path folder text_name
      Sample.world_abs_served
    = (inr (Attachment (OsPath.join Sample.static_abs [folder; text_name])
              (text result), 200), Sample.world_abs_served) /\
    download_vtt Sample.static_abs Sample.root_path folder vtt_name
      Sample.world_abs_served
    = (inr (Attachment (OsPath.join Sample.static_abs [folder; vtt_name])
              (Spec.caption_document (segments result)), 200), Sample.world_abs_served).
Proof.
  assert (Habs : Str.starts_with Sample.static_abs "/" = true) by (vm_compute; reflexivity).
  assert (H : run_abs = ((Sample.body_abs_served, 200), Sample.world_abs_served))
    by (vm_compute; reflexivity).
  split; [exact Habs|]. split; [exact H|].
  exact (download_after_transcribe Sample.token Sample.static_abs Sample.engine_ok
           Sample.no_fault Sample.root_path Sample.request Sample.now Sample.world_abs
           Sample.world_abs_served Sample.body_abs_served Habs H).
Defined.

Lemma transcribe_makedirs_fails_witness :
  headers Sample.request_sub !! "Authorization" = Some Sample.token /\
  form_files Sample.request_sub !! "audio_file" = Some Sample.upload_sub /\
  raised (Sample.leaf_fails
            (MakeDirs (OsPath.join Sample.static_folder
                         [folder_name (filename Sample.upload_sub) Sample.now]))
            Sample.world)
  = Some (OSError "[Errno 36] File name too long") /\
  run Sample.leaf_fails Sample.engine_ok Sample.request_sub Sample.now Sample.world
  = ((jsonify {[ "error" := "Internal server error" ]}, 500),
     {| dirs := made (Sample.leaf_fails
                        (MakeDirs (OsPath.join Sample.static_folder
                                     [folder_name (filename Sample.upload_sub) Sample.now]))
                        Sample.world) ∪ dirs Sample.world;
        files := files Sample.world;
        log := log Sample.world
               ++ [(ERROR, "Error during transcription: "
                           +:+ exn_str (OSError "[Errno 36] File name too long"))] |}) /\
  run Sample.leaf_fails Sample.engine_ok Sample.request_sub Sample.now Sample.world
  = internal_error "[Errno 36] File name too long" Sample.world_leaf_failed.
Proof.
  assert (H1 : headers Sample.request_sub !! "Authorization" = Some Sample.token)
    by (vm_compute; reflexivity).
  assert (H2 : form_files Sample.request_sub !! "audio_file" = Some Sample.upload_sub)
    by (vm_compute; reflexivity).
  assert (H3 : raised (Sample.leaf_fails
                         (MakeDirs (OsPath.join Sample.static_folder
                                      [folder_name (filename Sample.upload_sub) Sample.now]))
                         Sample.world)
               = Some (OSError "[Errno 36] File name too long"))
    by reflexivity.
  split; [exact H1|]. split; [exact H2|]. split; [exact H3|].
  split; [|vm_compute; reflexivity].
  exact (transcribe_makedirs_fails Sample.token Sample.static_folder Sample.engine_ok
           Sample.leaf_fails Sample.request_sub Sample.now Sample.world Sample.upload_sub
           _ H1 H2 H3).
Defined.

Lemma transcribe_save_fails_witness :
  headers Sample.request !! "Authorization" = Some Sample.token /\
  form_files Sample.request !! "audio_file" = Some Sample.upload /\
  raised (Sample.copy_fails (MakeDirs Sample.folder) Sample.world) = None /\
  save Sample.copy_fails Sample.upload Sample.audio_path
    {| dirs := {[Sample.folder]}
               ∪ (made (Sample.copy_fails (MakeDirs Sample.folder) Sample.world)
                  ∪ dirs Sample.world);
       files := files Sample.world; log := log Sample.world |}
  = (inl (OSError "[Errno 28] No space left on device"), Sample.world_copy_failed) /\
  run Sample.copy_fails Sample.engine_ok Sample.request Sample.now Sample.world
  = internal_error (exn_str (OSError "[Errno 28] No space left on device"))
      Sample.world_copy_failed /\
  dirs Sample.world_copy_failed
  = {[Sample.folder]}
    ∪ (made (Sample.copy_fails (MakeDirs Sample.folder) Sample.world)
       ∪ dirs Sample.world) /\
  log Sample.world_copy_failed = log Sample.world /\
  (forall p : string,
     p ≠ Sample.audio_path ->
     files Sample.world_copy_failed !! p = files Sample.world !! p) /\
  (files Sample.world_copy_failed !! Sample.audio_path
   = files Sample.world !! Sample.audio_path \/
   exists n : nat,
     files Sample.world_copy_failed !! Sample.audio_path
     = Some (Str.slice (stream Sample.upload) 0 n)).
Proof.
  assert (H1 : headers Sample.request !! "Authorization" = Some Sample.token)
    by (vm_compute; reflexivity).
  assert (H2 : form_files Sample.request !! "audio_file" = Some Sample.upload)
    by (vm_compute; reflexivity).
  assert (H3 : raised (Sample.copy_fails
                         (MakeDirs (OsPath.join Sample.static_folder
                                      [folder_name (filename Sample.upload) Sample.now]))
                         Sample.world) = None)
    by reflexivity.
  assert (H4 : save Sample.copy_fails Sample.upload
                 (OsPath.join
                    (OsPath.join Sample.static_folder
                       [folder_name (filename Sample.upload) Sample.now])
                    [filename Sample.upload])
                 {| dirs := {[OsPath.join Sample.static_folder
                                [folder_name (filename Sample.upload) Sample.now]]}
                            ∪ (made (Sample.copy_fails
                                       (MakeDirs (OsPath.join Sample.static_folder
                                                    [folder_name (filename Sample.upload)
                                                       Sample.now]))
                                       Sample.world)
                               ∪ dirs Sample.world);
                    files := files Sample.world; log := log Sample.world |}
               = (inl (OSError "[Errno 28] No space left on device"),
                  Sample.world_copy_failed))
    by (vm_compute; reflexivity).
  split; [exact H1|]. split; [exact H2|]. split; [exact H3|]. split; [exact H4|].
  exact (transcribe_save_fails Sample.token Sample.static_folder Sample.engine_ok
           Sample.copy_fails Sample.request Sample.now Sample.world
           Sample.world_copy_failed Sample.upload _ H1 H2 H3 H4).
Defined.

Lemma transcribe_engine_fails_witness :
  headers Sample.request !! "Authorization" = Some Sample.token /\
  form_files Sample.request !! "audio_file" = Some Sample.upload /\
  raised (Sample.no_fault (MakeDirs Sample.folder) Sample.world) = None /\
  fst (save Sample.no_fault Sample.upload Sample.audio_path
         {| dirs := {[Sample.folder]}
                    ∪ (made (Sample.no_fault (MakeDirs Sample.folder) Sample.world)
                       ∪ dirs Sample.world);
            files := files Sample.world; log := log Sample.world |})
  = inr tt /\
  Sample.engine_fails Sample.audio_path
    {| dirs := {[Sample.folder]}
               ∪ (made (Sample.no_fault (MakeDirs Sample.folder) Sample.world)
                  ∪ dirs Sample.world);
       files := <[Sample.audio_path := stream Sample.upload]> (files Sample.world);
       log := log Sample.world
              ++ [(INFO, "Transcribing audio file: " +:+ Sample.audio_path)] |}
  = inl (RuntimeError "Failed to load audio") /\
  run Sample.no_fault Sample.engine_fails Sample.request Sample.now Sample.world
  = internal_error (exn_str (RuntimeError "Failed to load audio"))
      {| dirs := {[Sample.folder]}
                 ∪ (made (Sample.no_fault (MakeDirs Sample.folder) Sample.world)
                    ∪ dirs Sample.world);
         files := <[Sample.audio_path := stream Sample.upload]> (files Sample.world);
         log := log Sample.world
                ++ [(INFO, "Transcribing audio file: " +:+ Sample.audio_path)] |}.
Proof.
  assert (H1 : headers Sample.request !! "Authorization" = Some Sample.token)
    by (vm_compute; reflexivity).
  assert (H2 : form_files Sample.request !! "audio_file" = Some Sample.upload)
    by (vm_compute; reflexivity).
  assert (H4 : fst (save Sample.no_fault Sample.upload
                      (OsPath.join
                         (OsPath.join Sample.static_folder
                            [folder_name (filename Sample.upload) Sample.now])
                         [filename Sample.upload])
                      {| dirs := {[OsPath.join Sample.static_folder
                                     [folder_name (filename Sample.upload) Sample.now]]}
                                 ∪ (made (Sample.no_fault
                                            (MakeDirs
                                               (OsPath.join Sample.static_folder
                                                  [folder_name (filename Sample.upload)
                                                     Sample.now]))
                                            Sample.world)
                                    ∪ dirs Sample.world);
                         files := files Sample.world; log := log Sample.world |})
               = inr tt)
    by (vm_compute; reflexivity).
  split; [exact H1|]. split; [exact H2|].
  split; [reflexivity|]. split; [exact H4|]. split; [reflexivity|].
  exact (transcribe_engine_fails Sample.token Sample.static_folder Sample.engine_fails
           Sample.no_fault Sample.request Sample.now Sample.world Sample.upload
           _ H1 H2 eq_refl H4 eq_refl).
Defined.

Lemma transcribe_same_second_overwrites_witness :
  Spec.same_second Sample.now Sample.later_in_the_second /\
  run Sample.no_fault Sample.engine_ok Sample.request Sample.now Sample.world
  = ((Sample.body_served, 200), Sample.world_served) /\
  run Sample.no_fault Sample.engine_ok Sample.request Sample.later_in_the_second
    Sample.world_served
  = ((Sample.body_served, 200), Sample.world_served_twice) /\
  exists (audio_file : FileStorage) (result2 : TranscriptionResult)
         (obj1 obj2 : gmap string string),
    let folder_path :=
      OsPath.join Sample.static_folder [folder_name (filename audio_file) Sample.now] in
    let file_path := OsPath.join folder_path [filename audio_file] in
    let text_file_path := OsPath.join folder_path [text_filename (filename audio_file)] in
    let vtt_file_path := OsPath.join folder_path [vtt_filename (filename audio_file)] in
    let w_engine :=
      {| dirs := {[folder_path]}
                 ∪ (made (Sample.no_fault (MakeDirs folder_path) Sample.world_served)
                    ∪ dirs Sample.world_served);
         files := <[file_path := stream audio_file]> (files Sample.world_served);
         log := log Sample.world_served
                ++ [(INFO, "Transcribing audio file: " +:+ file_path)] |} in
    form_files Sample.request !! "audio_file" = Some audio_file /\
    Sample.engine_ok file_path w_engine = inr result2 /\
    folder_path ∈ dirs Sample.world_served /\
    dirs Sample.world_served_twice
    = made (Sample.no_fault (MakeDirs folder_path) Sample.world_served)
      ∪ dirs Sample.world_served /\
    dom (files Sample.world_served_twice) = dom (files Sample.world_served) /\
    Sample.body_served = Json obj1 /\ Sample.body_served = Json obj2 /\
    obj1 !! "text_file_path" = Some text_file_path /\
    obj2 !! "text_file_path" = Some text_file_path /\
    obj1 !! "vtt_file_path" = Some vtt_file_path /\
    obj2 !! "vtt_file_path" = Some vtt_file_path /\
    obj2 !! "transcribed_text" = Some (text result2) /\
    files Sample.world_served_twice !! text_file_path = Some (text result2) /\
    files Sample.world_served_twice !! vtt_file_path
    = Some (Spec.caption_document (segments result2)).
Proof.
  assert (H1 : Spec.same_second Sample.now Sample.later_in_the_second)
    by (repeat split; reflexivity).
  assert (H2 : run Sample.no_fault Sample.engine_ok Sample.request Sample.now Sample.world
               = ((Sample.body_served, 200), Sample.world_served))
    by (vm_compute; reflexivity).
  assert (H3 : run Sample.no_fault Sample.engine_ok Sample.request
                 Sample.later_in_the_second Sample.world_served
               = ((Sample.body_served, 200), Sample.world_served_twice))
    by (vm_compute; reflexivity).
  split; [exact H1|]. split; [exact H2|]. split; [exact H3|].
  exact (transcribe_same_second_overwrites Sample.token Sample.static_folder
           Sample.engine_ok Sample.no_fault Sample.request Sample.now
           Sample.later_in_the_second Sample.world Sample.world_served
           Sample.world_served_twice Sample.body_served Sample.body_served H1 H2 H3).
Defined.

Lemma paths_under_storage_root_witness :
  Sample.static_folder <> "" /\ Str.ends_with Sample.static_folder "/" = false /\
  Str.starts_with "clip.wav" "/" = false /\
  OsPath.join Sample.static_folder [folder_name "clip.wav" Sample.now]
  = Sample.static_folder +:+ "/" +:+ folder_name "clip.wav" Sample.now /\
  OsPath.join (OsPath.join Sample.static_folder [folder_name "clip.wav" Sample.now])
    ["clip.wav"]
  = OsPath.join Sample.static_folder [folder_name "clip.wav" Sample.now]
      +:+ "/" +:+ "clip.wav" /\
  OsPath.join (OsPath.join Sample.static_folder [folder_name "clip.wav" Sample.now])
    [text_filename "clip.wav"]
  = OsPath.join Sample.static_folder [folder_name "clip.wav" Sample.now]
      +:+ "/" +:+ text_filename "clip.wav" /\
  OsPath.join (OsPath.join Sample.static_folder [folder_name "clip.wav" Sample.now])
    [vtt_filename "clip.wav"]
  = OsPath.join Sample.static_folder [folder_name "clip.wav" Sample.now]
      +:+ "/" +:+ vtt_filename "clip.wav".
Proof.
  assert (H1 : Sample.static_folder <> "") by (intros Heq; discriminate Heq).
  assert (H2 : Str.ends_with Sample.static_folder "/" = false) by (vm_compute; reflexivity).
  assert (H3 : Str.starts_with "clip.wav" "/" = false) by (vm_compute; reflexivity).
  split; [exact H1|]. split; [exact H2|]. split; [exact H3|].
  exact (paths_under_storage_root Sample.static_folder "clip.wav" Sample.now H1 H2 H3).
Defined.

Lemma paths_of_absolute_upload_witness :
  Str.starts_with "/srv/clip.wav" "/" = true /\
  OsPath.join Sample.static_folder [folder_name "/srv/clip.wav" Sample.now]
  = folder_name "/srv/clip.wav" Sample.now /\
  OsPath.join (OsPath.join Sample.static_folder [folder_name "/srv/clip.wav" Sample.now])
    ["/srv/clip.wav"] = "/srv/clip.wav" /\
  OsPath.join (OsPath.join Sample.static_folder [folder_name "/srv/clip.wav" Sample.now])
    [text_filename "/srv/clip.wav"] = text_filename "/srv/clip.wav" /\
  OsPath.join (OsPath.join Sample.static_folder [folder_name "/srv/clip.wav" Sample.now])
    [vtt_filename "/srv/clip.wav"] = vtt_filename "/srv/clip.wav" /\
  Str.starts_with (folder_name "/srv/clip.wav" Sample.now) "/" = true /\
  Str.starts_with (text_filename "/srv/clip.wav") "/" = true /\
  Str.starts_with (vtt_filename "/srv/clip.wav") "/" = true.
Proof.
  assert (H : Str.starts_with "/srv/clip.wav" "/" = true) by (vm_compute; reflexivity).
  split; [exact H|].
  exact (paths_of_absolute_upload Sample.static_folder "/srv/clip.wav" Sample.now H).
Defined.

Lemma folder_name_collision_witness :
  datetime_valid Sample.now /\ datetime_valid Sample.later_in_the_second /\
  1000 <= year Sample.now /\ 1000 <= year Sample.later_in_the_second /\
  (folder_name "clip.wav" Sample.now = folder_name "clip.mp3" Sample.later_in_the_second
   <-> fst (OsPath.splitext "clip.wav") = fst (OsPath.splitext "clip.mp3") /\
       Spec.same_second Sample.now Sample.later_in_the_second).
Proof.
  assert (H1 : datetime_valid Sample.now) by (unfold datetime_valid; simpl; lia).
  assert (H2 : datetime_valid Sample.later_in_the_second)
    by (unfold datetime_valid; simpl; lia).
  assert (H3 : 1000 <= year Sample.now) by (simpl; lia).
  assert (H4 : 1000 <= year Sample.later_in_the_second) by (simpl; lia).
  split; [exact H1|]. split; [exact H2|]. split; [exact H3|]. split; [exact H4|].
  exact (folder_name_collision "clip.wav" "clip.mp3" Sample.now
           Sample.later_in_the_second H1 H2 H3 H4).
Defined.

Lemma upload_kept_unless_vtt_witness :
  run Sample.no_fault Sample.engine_ok Sample.request_vtt Sample.now Sample.world
  = ((Sample.body_served, 200), Sample.world_vtt_served) /\
  exists (audio_file : FileStorage) (result : TranscriptionResult),
    let folder_path :=
      OsPath.join Sample.static_folder [folder_name (filename audio_file) Sample.now] in
    let file_path := OsPath.join folder_path [filename audio_file] in
    form_files Sample.request_vtt !! "audio_file" = Some audio_file /\
    (exists w_engine, Sample.engine_ok file_path w_engine = inr result) /\
    files Sample.world_vtt_served !! file_path
    = Some (if bool_decide (snd (OsPath.splitext (filename audio_file)) = ".vtt")
            then Spec.caption_document (segments result)
            else stream audio_file).
Proof.
  assert (H : run Sample.no_fault Sample.engine_ok Sample.request_vtt Sample.now
                Sample.world
              = ((Sample.body_served, 200), Sample.world_vtt_served))
    by (vm_compute; reflexivity).
  split; [exact H|].
  exact (upload_kept_unless_vtt Sample.token Sample.static_folder Sample.engine_ok
           Sample.no_fault Sample.request_vtt Sample.now Sample.world
           Sample.world_vtt_served Sample.body_served H).
Defined.


Lemma download_returns_upload_witness :
  Str.starts_with Sample.static_abs "/" = true /\
  run_abs = ((Sample.body_abs_served, 200), Sample.world_abs_served) /\
  form_files Sample.request !! "audio_file" = Some Sample.upload /\
  snd (OsPath.splitext (filename Sample.upload)) ≠ ".vtt" /\
  download_text Sample.static_abs Sample.root_path
    (folder_name (filename Sample.upload) Sample.now) (filename Sample.upload)
    Sample.world_abs_served
  = (inr (Attachment
            (OsPath.join Sample.static_abs
               [folder_name (filename Sample.upload) Sample.now; filename Sample.upload])
            (stream Sample.upload), 200), Sample.world_abs_served) /\
  download_vtt Sample.static_abs Sample.root_path
    (folder_name (filename Sample.upload) Sample.now) (filename Sample.upload)
    Sample.world_abs_served
  = (inr (Attachment
            (OsPath.join Sample.static_abs
               [folder_name (filename Sample.upload) Sample.now; filename Sample.upload])
            (stream Sample.upload), 200), Sample.world_abs_served).
Proof.
  assert (Habs : Str.starts_with Sample.static_abs "/" = true) by (vm_compute; reflexivity).
  assert (H1 : run_abs = ((Sample.body_abs_served, 200), Sample.world_abs_served))
    by (vm_compute; reflexivity).
  assert (H2 : form_files Sample.request !! "audio_file" = Some Sample.upload)
    by (vm_compute; reflexivity).
  assert (H3 : snd (OsPath.splitext (filename Sample.upload)) ≠ ".vtt")
    by (vm_compute; intros Heq; discriminate Heq).
  split; [exact Habs|]. split; [exact H1|]. split; [exact H2|]. split; [exact H3|].
  exact (download_returns_upload Sample.token Sample.static_abs Sample.engine_ok
           Sample.no_fault Sample.root_path Sample.request Sample.now Sample.world_abs
           Sample.world_abs_served Sample.body_abs_served Sample.upload Habs H1 H2 H3).
Defined.

End SampleExtras.
